(** * H2GREEN: levelized cost of hydrogen, simplified and lifetime models

    Shallow embedding of the three modules of [backend/NOVO]:
      - [h2verde_tea (versao inicial).py], the simplified annual model
        ([simular]), in [Tea];
      - [h2verde_tea_eho (versao validada pelo gpt).py], the lifetime
        model ([simulate_eho]), in [Eho];
      - [sensibilidade_h2verde.py], the sensitivity driver
        ([tornado_lcoh]), in [Sens].
    The formulas of the specification and the scenarios used in examples
    are in [TeaSpec], [EhoSpec] and [SensSpec]; the theorems in [TeaFacts],
    [EhoFacts] and [SensFacts].

    Numbers.  A Python [float] is embedded as an exact rational ([Q]); a
    Python [int] as [Z].  Rounding, infinities and NaN are outside the
    embedding; equality of floats is [Qeq] (written [==]).  The theorems
    are stated so that they read the same on the binary64 program: values
    are given by the operations of the code in the order of the code,
    comparisons are those that correctly rounded arithmetic preserves
    (signs, monotonicity, the order of a sorted list), and where the
    rational and the binary64 evaluation can part (the zero test of the
    divisor of the capital recovery factor, the floor of a quotient) the
    statement is about what the function returned, or is restricted to
    numbers that binary64 holds exactly ([EhoSpec.binary64]).

    Errors.  A Python exception is a value [Raise e] of the [result] type.
    Every [/] whose divisor is not a non-zero literal goes through [pydiv],
    which raises [ZeroDivisionError] on a zero divisor, as Python does.
    [NotEmbedded] is not a Python exception: it marks a store that would
    leave the typed scenarios of the embedding (a fractional number in an
    [int] field, a number in place of the currency string).

    Loops.  The [while] loop of [average_sec_kwh_per_kg_over_life] is run
    with fuel; [None] means that the fuel ran out before the loop test
    failed. *)

From Stdlib Require Import ZArith QArith Qround Qabs Qpower List Ascii String Bool Lia Lqa.
From Stdlib Require Import Sorting.Sorted Sorting.Permutation.
Import ListNotations.

Local Open Scope Q_scope.

(* ================================================================== *)
(** * Python runtime conventions                                        *)
(* ================================================================== *)

Inductive exn : Type :=
| ValueError
| ZeroDivisionError
| StopIteration
| AttributeError
| NotEmbedded.

Inductive result (A : Type) : Type :=
| Ok (a : A)
| Raise (e : exn).

Arguments Ok {A} a.
Arguments Raise {A} e.

Definition bind {A B : Type} (m : result A) (k : A -> result B) : result B :=
  match m with
  | Ok a => k a
  | Raise e => Raise e
  end.

Notation "'let*' x ':=' m 'in' k" := (bind m (fun x => k))
  (at level 10, x name, m at level 100, k at level 200).

(** [a / b] on numbers. *)
Definition pydiv (a b : Q) : result Q :=
  if Qeq_bool b 0 then Raise ZeroDivisionError else Ok (a / b).

(** [max(a, b)]: the first argument unless the second is strictly larger. *)
Definition pymax (a b : Q) : Q :=
  if Qlt_le_dec a b then b else a.

(** [min(a, b)]: the first argument unless the second is strictly smaller. *)
Definition pymin (a b : Q) : Q :=
  if Qlt_le_dec b a then b else a.

(** [min(a, b, c)]. *)
Definition pymin3 (a b c : Q) : Q := pymin (pymin a b) c.

(** The literal [1e-12]. *)
Definition eps12 : Q := 1 # 1000000000000.

(** The literal [1e-9]. *)
Definition eps9 : Q := 1 # 1000000000.

(** [sum(xs)]: starts from [0] and adds from the left. *)
Definition pysum (xs : list Q) : Q := fold_left Qplus xs 0.

(* ================================================================== *)
(** * Simplified annual model ([h2verde_tea.py])                        *)
(* ================================================================== *)

Module Tea.

Record EspecificacaoEletrolisador : Type := {
  nome : string;
  sec_kwh_por_kg : Q;
  fracao_minima_carga : Q;
  disponibilidade : Q;
  potencia_kw : Q;
  vida_util_anos : Z;
  degradacao_pct_ano : Q;
  fracao_reposicao_stack_capex : Q
}.

Record BalanceOfPlant : Type := {
  fracao_capex_bop : Q;
  om_fixo_pct_capex_ano : Q;
  om_variavel_por_kg : Q
}.

Record TarifaEnergia : Type := {
  preco_mwh : Q;
  demanda_kw_mes : Q;
  demanda_contratada_kw : Q
}.

Record AguaUtilidades : Type := {
  custo_agua_m3 : Q;
  litros_por_kg : Q
}.

Record CompressaoArmazenamentoEntrega : Type := {
  pressao_entrega_bar : Q;
  energia_compressao_kwh_por_kg : Q;
  capex_armazenamento_por_kg : Q;
  horas_buffer : Q;
  secagem_purificacao_por_kg : Q
}.

Record Financiamento : Type := {
  wacc_real : Q;
  inflacao_pct : Q;
  vida_projeto_anos : Z;
  fracao_divida : Q;
  contingencia_capex_pct : Q
}.

Record CapexDetalhado : Type := {
  eletrolisador_capex_por_kw : Q;
  fracao_bop : Q;
  instalacao_pct : Q;
  custos_dono_pct : Q;
  interconexao_por_kw : Q;
  capex_tratamento_agua : Q;
  compressor_capex_por_kg_h : Q
}.

Record CenarioEntrada : Type := {
  moeda : string;
  eletrolisador : EspecificacaoEletrolisador;
  bop : BalanceOfPlant;
  energia : TarifaEnergia;
  agua : AguaUtilidades;
  cae : CompressaoArmazenamentoEntrega;
  financiamento : Financiamento;
  capex : CapexDetalhado;
  fator_capacidade_anual : Q;
  horas_ano : Z;
  emissoes_rede_kg_mwh : Q
}.

Record ItemLinha : Type := {
  item_nome : string;
  valor : Q;
  unidade : string
}.

(** [CenarioEntrada.validar]. *)
Definition validar (c : CenarioEntrada) : result unit :=
  if Qle_bool 0 (fator_capacidade_anual c) && Qle_bool (fator_capacidade_anual c) 1
  then Ok tt
  else Raise ValueError.

(** ** Financial primitives *)

(** The divisor [(1 + i)^anos - 1] is the one divisor of the module that is
    not floored.  Over the rationals it is zero at [i = -2] with an even
    [anos]; in binary64 it is zero also where [1.0 + i] rounds to [1.0],
    and the power can overflow.  Theorems that need the factor take it as
    returned by the function. *)
Definition fator_recuperacao_capital (wacc_real : Q) (anos : Z) : result Q :=
  let i := wacc_real in
  if (anos <=? 0)%Z then Ok 1
  else if Qeq_bool i 0 then pydiv 1 (inject_Z anos)
  else pydiv (i * (1 + i) ^ anos) ((1 + i) ^ anos - 1).

Definition anualizar_capex (capex_total wacc_real : Q) (anos : Z) : result Q :=
  let* f := fator_recuperacao_capital wacc_real anos in
  Ok (capex_total * f).

(** ** Technical model *)

Definition consumo_especifico_ano (e : EspecificacaoEletrolisador) (ano : Z) : Q :=
  let crescimento := (1 + degradacao_pct_ano e / 100) ^ (Z.max 0 (ano - 1)) in
  sec_kwh_por_kg e * crescimento.

Definition producao_anual_kg (e : EspecificacaoEletrolisador) (fator_cf : Q)
    (horas_ano : Z) : result Q :=
  let horas_efetivas := inject_Z horas_ano * fator_cf * disponibilidade e in
  pydiv (potencia_kw e * horas_efetivas) (pymax (sec_kwh_por_kg e) eps12).

Definition capacidade_armazenamento_kg (cae : CompressaoArmazenamentoEntrega)
    (h2_anual_kg horas_ano : Q) : result Q :=
  let* media_kg_h := pydiv h2_anual_kg (pymax horas_ano eps12) in
  Ok (media_kg_h * horas_buffer cae).

(** ** Techno-economic simulation *)

Definition calcular_capex (c : CenarioEntrada) : result (list ItemLinha) :=
  let p_kw := potencia_kw (eletrolisador c) in
  let eletrolisador_ := p_kw * eletrolisador_capex_por_kw (capex c) in
  let bop_ := eletrolisador_ * fracao_bop (capex c) in
  let interconexao := p_kw * interconexao_por_kw (capex c) in
  let* kg_h := pydiv p_kw (pymax (sec_kwh_por_kg (eletrolisador c)) eps12) in
  let compressor := kg_h * compressor_capex_por_kg_h (capex c) in
  let* h2_anual :=
    producao_anual_kg (eletrolisador c) (fator_capacidade_anual c) (horas_ano c) in
  let* cap_kg :=
    capacidade_armazenamento_kg (cae c) h2_anual
      (inject_Z (horas_ano c) * disponibilidade (eletrolisador c)) in
  let armazenamento := cap_kg * capex_armazenamento_por_kg (cae c) in
  let agua_ := capex_tratamento_agua (capex c) in
  let diretos :=
    eletrolisador_ + bop_ + interconexao + compressor + armazenamento + agua_ in
  let instalacao := diretos * (instalacao_pct (capex c) / 100) in
  let custos_dono := diretos * (custos_dono_pct (capex c) / 100) in
  let contingencia :=
    (diretos + instalacao + custos_dono)
    * (contingencia_capex_pct (financiamento c) / 100) in
  let total := diretos + instalacao + custos_dono + contingencia in
  Ok [ Build_ItemLinha "Eletrolisador" eletrolisador_ (moeda c);
       Build_ItemLinha "Balance of Plant" bop_ (moeda c);
       Build_ItemLinha "Interconexão" interconexao (moeda c);
       Build_ItemLinha "Compressor" compressor (moeda c);
       Build_ItemLinha "Armazenamento Buffer" armazenamento (moeda c);
       Build_ItemLinha "Tratamento Água" agua_ (moeda c);
       Build_ItemLinha "Instalação/EPC" instalacao (moeda c);
       Build_ItemLinha "Custos do Dono" custos_dono (moeda c);
       Build_ItemLinha "Contingência" contingencia (moeda c);
       Build_ItemLinha "Total CAPEX" total (moeda c) ].

(** [next(i.valor for i in itens if i.nome == nome)]. *)
Definition next_valor (nome : string) (itens : list ItemLinha) : result Q :=
  match find (fun i => String.eqb (item_nome i) nome) itens with
  | Some i => Ok (valor i)
  | None => Raise StopIteration
  end.

Definition calcular_opex_fixo (c : CenarioEntrada) (itens_capex : list ItemLinha)
    : result (list ItemLinha) :=
  let* total_capex := next_valor "Total CAPEX" itens_capex in
  let om_fixo := total_capex * om_fixo_pct_capex_ano (bop c) in
  let demanda :=
    if Qlt_le_dec 0 (demanda_kw_mes (energia c))
    then demanda_kw_mes (energia c) * demanda_contratada_kw (energia c) * 12
    else 0 in
  Ok [ Build_ItemLinha "O&M Fixo (% CAPEX)" om_fixo (moeda c);
       Build_ItemLinha "Custo Demanda (anual)" demanda (moeda c) ].

Definition calcular_energia_var (c : CenarioEntrada) (h2_anual : Q)
    : list ItemLinha * list ItemLinha * Q * Q :=
  let sec := sec_kwh_por_kg (eletrolisador c) in
  let comp := energia_compressao_kwh_por_kg (cae c) in
  let total_kwh_kg := sec + comp in
  let mwh_anual := (total_kwh_kg * h2_anual) / 1000 in
  let custo_energia := mwh_anual * preco_mwh (energia c) in
  let m3_agua := (litros_por_kg (agua c) / 1000) * h2_anual in
  let custo_agua := m3_agua * custo_agua_m3 (agua c) in
  let vom :=
    om_variavel_por_kg (bop c) * h2_anual
    + secagem_purificacao_por_kg (cae c) * h2_anual in
  let itens_energia :=
    [ Build_ItemLinha "Eletricidade (Eletrólise+Compressão)" mwh_anual "MWh/ano";
      Build_ItemLinha "SEC Médio (incl. compressão)" total_kwh_kg "kWh/kg" ] in
  let itens_var :=
    [ Build_ItemLinha "Custo Energia" custo_energia (moeda c);
      Build_ItemLinha "Custo Água" custo_agua (moeda c);
      Build_ItemLinha "O&M Variável" vom (moeda c) ] in
  (itens_energia, itens_var, mwh_anual, total_kwh_kg).

(** The dictionary returned by [simular]. *)
Record Resultado : Type := {
  lcoh : Q;
  h2_anual_kg : Q;
  mwh_anual : Q;
  emissoes_kgco2_por_kg : Q;
  res_capex : list ItemLinha;
  res_opex_fixo : list ItemLinha;
  res_opex_variavel : list ItemLinha;
  res_energia : list ItemLinha
}.

Definition simular (c : CenarioEntrada) : result Resultado :=
  let* _ := validar c in
  let* itens_capex := calcular_capex c in
  let* total_capex := next_valor "Total CAPEX" itens_capex in
  let* h2_anual :=
    producao_anual_kg (eletrolisador c) (fator_capacidade_anual c) (horas_ano c) in
  let '(itens_energia, itens_var, mwh_anual_, kwh_por_kg) :=
    calcular_energia_var c h2_anual in
  let* itens_fixos := calcular_opex_fixo c itens_capex in
  let custo_fixo := pysum (map valor itens_fixos) in
  let custo_variavel := pysum (map valor itens_var) in
  let base_stack :=
    (eletrolisador_capex_por_kw (capex c) * potencia_kw (eletrolisador c))
    * fracao_reposicao_stack_capex (eletrolisador c) in
  let* reposicao_anual_equiv :=
    pydiv base_stack (inject_Z (Z.max (vida_util_anos (eletrolisador c)) 1)) in
  let* capex_anual :=
    anualizar_capex total_capex (wacc_real (financiamento c))
      (vida_projeto_anos (financiamento c)) in
  let custo_total_anual :=
    capex_anual + custo_fixo + custo_variavel + reposicao_anual_equiv in
  let* lcoh_ := pydiv custo_total_anual (pymax h2_anual eps12) in
  let emissoes := (kwh_por_kg / 1000) * emissoes_rede_kg_mwh c in
  Ok {| lcoh := lcoh_;
        h2_anual_kg := h2_anual;
        mwh_anual := mwh_anual_;
        emissoes_kgco2_por_kg := emissoes;
        res_capex := itens_capex;
        res_opex_fixo := itens_fixos;
        res_opex_variavel :=
          itens_var
          ++ [Build_ItemLinha "Reposição Stack (anual eq.)" reposicao_anual_equiv
                (moeda c)];
        res_energia := itens_energia |}.

(** [CenarioEntrada()]: every field at its dataclass default. *)
Definition cenario_padrao : CenarioEntrada :=
  {| moeda := "BRL";
     eletrolisador :=
       {| nome := "PEM_5MW_referencia"; sec_kwh_por_kg := 52;
          fracao_minima_carga := 1 # 10; disponibilidade := 97 # 100;
          potencia_kw := 5000; vida_util_anos := 8;
          degradacao_pct_ano := 1 # 2;
          fracao_reposicao_stack_capex := 25 # 100 |};
     bop :=
       {| fracao_capex_bop := 35 # 100; om_fixo_pct_capex_ano := 3 # 100;
          om_variavel_por_kg := 20 # 100 |};
     energia :=
       {| preco_mwh := 350; demanda_kw_mes := 0; demanda_contratada_kw := 0 |};
     agua := {| custo_agua_m3 := 5; litros_por_kg := 9 |};
     cae :=
       {| pressao_entrega_bar := 350; energia_compressao_kwh_por_kg := 25 # 10;
          capex_armazenamento_por_kg := 400; horas_buffer := 4;
          secagem_purificacao_por_kg := 10 # 100 |};
     financiamento :=
       {| wacc_real := 10 # 100; inflacao_pct := 4; vida_projeto_anos := 20;
          fracao_divida := 60 # 100; contingencia_capex_pct := 10 |};
     capex :=
       {| eletrolisador_capex_por_kw := 700; fracao_bop := 35 # 100;
          instalacao_pct := 12; custos_dono_pct := 5; interconexao_por_kw := 80;
          capex_tratamento_agua := 200000; compressor_capex_por_kg_h := 1200 |};
     fator_capacidade_anual := 85 # 100;
     horas_ano := 8760;
     emissoes_rede_kg_mwh := 80 |}.

End Tea.

(* ================================================================== *)
(** * Lifetime model ([h2verde_tea_eho.py])                             *)
(* ================================================================== *)

(** A computation that may run out of fuel ([None]), raise or return. *)
Definition fueled (A : Type) : Type := option (result A).

Definition fbind {A B : Type} (m : fueled A) (k : A -> fueled B) : fueled B :=
  match m with
  | None => None
  | Some (Raise e) => Some (Raise e)
  | Some (Ok a) => k a
  end.

Definition lift {A : Type} (m : result A) : fueled A := Some m.

Notation "'let+' x ':=' m 'in' k" := (fbind m (fun x => k))
  (at level 10, x name, m at level 100, k at level 200).

Module Eho.

Record EHOElectrolyser : Type := {
  power_kw : Q;
  sec_start_kwh_per_kg : Q;
  stack_durability_h : Q;
  degradation_pct_per_1000h : Q;
  compression_kwh_per_kg : Q
}.

Record EHOEconomics : Type := {
  economic_life_years : Z;
  discount_rate : Q;
  other_opex_pct_capex_per_year : Q;
  stack_replacement_pct_capex : Q;
  electricity_price_eur_per_mwh : Q;
  grid_fees_eur_per_mwh : Q;
  electricity_taxes_eur_per_mwh : Q
}.

Record EHOCAPEX : Type := {
  electrolyser_capex_eur_per_kw : Q;
  installed_power_kw : Q
}.

Record EHOSubsidiesAndRevenues : Type := {
  capex_subsidy_eur_per_kw : Q;
  h2_premium_eur_per_kg : Q;
  reduction_grid_or_tax_eur_per_mwh : Q;
  oxygen_sale_price_eur_per_ton : Q
}.

Record EHOOperatingProfile : Type := {
  operating_hours_per_year : Q;
  availability : Q
}.

Record EHOScenario : Type := {
  electrolyser : EHOElectrolyser;
  economics : EHOEconomics;
  capex : EHOCAPEX;
  subs : EHOSubsidiesAndRevenues;
  ops : EHOOperatingProfile;
  currency : string
}.

(** ** Utilities *)

(** The same function as [Tea.fator_recuperacao_capital], with the same
    unfloored divisor. *)
Definition crf (i : Q) (n : Z) : result Q :=
  if (n <=? 0)%Z then Ok 1
  else if Qeq_bool i 0 then pydiv 1 (inject_Z n)
  else pydiv (i * (1 + i) ^ n) ((1 + i) ^ n - 1).

(** ** Calculations *)

(** Eq.2.  The floor is taken of the quotient as computed; in binary64
    that is the exact quotient where the division does not round. *)
Definition stack_replacements (econ_years : Z) (op_hours_per_year durability_h : Q)
    : result Z :=
  let* q := pydiv (inject_Z econ_years * op_hours_per_year)
                  (pymax durability_h eps12) in
  Ok (Qfloor q).

(** The local variables of the [while] loop of
    [average_sec_kwh_per_kg_over_life]. *)
Record blocks : Type := {
  sec_sum : Q;
  hours_counted : Q;
  hours_until_reset : Q;
  current_sec : Q
}.

Section AverageSec.

Variables (sec0 degr_pct_per_1000h total_hours durability_h : Q).

(** One pass through the loop body. *)
Definition block_step (st : blocks) : blocks :=
  let step := 1000 in
  let block :=
    pymin3 step (total_hours - hours_counted st) (hours_until_reset st) in
  let rate_per_h := (degr_pct_per_1000h / 100) / 1000 in
  let sec_end := current_sec st * (1 + rate_per_h * block) in
  let sec_block_avg := (current_sec st + sec_end) / 2 in
  let sec_sum' := sec_sum st + sec_block_avg * block in
  let current_sec' := sec_end in
  let hours_counted' := hours_counted st + block in
  let hours_until_reset' := hours_until_reset st - block in
  if Qle_bool hours_until_reset' eps9
     && negb (Qle_bool (total_hours - eps9) hours_counted')
  then {| sec_sum := sec_sum'; hours_counted := hours_counted';
          hours_until_reset := durability_h; current_sec := sec0 |}
  else {| sec_sum := sec_sum'; hours_counted := hours_counted';
          hours_until_reset := hours_until_reset'; current_sec := current_sec' |}.

(** [while hours_counted < total_hours - 1e-9: ...] *)
Fixpoint while_blocks (fuel : nat) (st : blocks) : option blocks :=
  if Qle_bool (total_hours - eps9) (hours_counted st) then Some st
  else match fuel with
       | O => None
       | S fuel' => while_blocks fuel' (block_step st)
       end.

End AverageSec.

(** Eq.3 *)
Definition average_sec_kwh_per_kg_over_life (fuel : nat)
    (sec0 degr_pct_per_1000h : Q) (econ_years : Z)
    (op_hours_per_year durability_h : Q) : fueled Q :=
  let total_hours := inject_Z econ_years * op_hours_per_year in
  let+ repls := lift (stack_replacements econ_years op_hours_per_year durability_h) in
  let st0 := {| sec_sum := 0; hours_counted := 0;
                hours_until_reset := durability_h; current_sec := sec0 |} in
  match while_blocks sec0 degr_pct_per_1000h total_hours durability_h fuel st0 with
  | None => None
  | Some st => lift (pydiv (sec_sum st) (pymax total_hours eps12))
  end.

(** Eq.4 *)
Definition capacity_kg_per_h (power_kw avg_sec_kwh_per_kg : Q) : result Q :=
  pydiv power_kw (pymax avg_sec_kwh_per_kg eps12).

(** Eq.5 *)
Definition hydrogen_output_kg (op_hours_per_year capacity_kg_h : Q) (econ_years : Z)
    : Q :=
  op_hours_per_year * capacity_kg_h * inject_Z econ_years.

(** Eq.6 *)
Definition electricity_consumption_mwh (h2_output_kg avg_sec_kwh_per_kg : Q) : Q :=
  (h2_output_kg * avg_sec_kwh_per_kg) / 1000.

Definition add_compression_to_sec (avg_sec_kwh_per_kg compression_kwh_per_kg : Q) : Q :=
  avg_sec_kwh_per_kg + pymax compression_kwh_per_kg 0.

(** Eq.7 *)
Definition electrolyser_capex_eur (capex_eur_per_kw installed_kw : Q) : Q :=
  capex_eur_per_kw * installed_kw.

Definition annualised_capex_eur_per_year (capex_eur i : Q) (n_years : Z) : result Q :=
  let* f := crf i n_years in
  Ok (capex_eur * f).

(** Eq.9 *)
Definition electricity_cost_eur (electricity_mwh price_eur_per_mwh : Q) : Q :=
  electricity_mwh * price_eur_per_mwh.

(** Eq.10 *)
Definition electricity_cost_eur_per_kg (cost_eur h2_output_kg : Q) : result Q :=
  pydiv cost_eur (pymax h2_output_kg eps12).

(** Eq.12 *)
Definition other_opex_total_eur (capex_eur pct_per_year : Q) (econ_years : Z) : Q :=
  capex_eur * pct_per_year * inject_Z econ_years.

(** Eq.11 *)
Definition stack_replacement_total_eur (capex_eur pct_capex : Q) (n_repl : Z) : Q :=
  capex_eur * pct_capex * inject_Z n_repl.

(** Eq.13 *)
Definition other_opex_eur_per_kg (other_opex_eur stack_eur h2_output_kg : Q)
    : result Q :=
  pydiv (other_opex_eur + stack_eur) (pymax h2_output_kg eps12).

(** Eq.14 *)
Definition grid_fees_total_eur (electricity_mwh grid_fee_eur_per_mwh : Q) : Q :=
  electricity_mwh * grid_fee_eur_per_mwh.

(** Eq.15 *)
Definition grid_fees_eur_per_kg (grid_eur h2_output_kg : Q) : result Q :=
  pydiv grid_eur (pymax h2_output_kg eps12).

(** Eq.16 *)
Definition taxes_total_eur (electricity_mwh taxes_eur_per_mwh : Q) : Q :=
  electricity_mwh * taxes_eur_per_mwh.

(** Eq.17 *)
Definition taxes_eur_per_kg (taxes_eur h2_output_kg : Q) : result Q :=
  pydiv taxes_eur (pymax h2_output_kg eps12).

(** Eq.19-21 *)
Definition subsidies_total_eur (capex_kw grant_eur_per_kw h2_output_kg
    premium_eur_per_kg electricity_mwh reduction_eur_per_mwh : Q) : Q :=
  let capex_grant := grant_eur_per_kw * capex_kw in
  let premium := premium_eur_per_kg * h2_output_kg in
  let reduction := reduction_eur_per_mwh * electricity_mwh in
  capex_grant + premium + reduction.

(** Eq.22 *)
Definition subsidies_eur_per_kg (subsidies_eur h2_output_kg : Q) : result Q :=
  pydiv (- subsidies_eur) (pymax h2_output_kg eps12).

(** Eq.23 *)
Definition oxygen_output_kg (h2_output_kg : Q) : Q := h2_output_kg * 8.

(** Eq.24 *)
Definition oxygen_revenues_total_eur (o2_output_kg o2_price_eur_per_ton : Q) : Q :=
  (o2_output_kg / 1000) * o2_price_eur_per_ton.

(** Eq.25 *)
Definition oxygen_revenues_eur_per_kg (o2_total_eur h2_output_kg : Q) : result Q :=
  pydiv (- o2_total_eur) (pymax h2_output_kg eps12).

(** ** Simulation *)

(** ["breakdown_eur_per_kg"] *)
Record Breakdown : Type := {
  bd_capex : Q;
  bd_electricity : Q;
  bd_other_opex : Q;
  bd_grid_fees : Q;
  bd_taxes : Q;
  bd_subsidies : Q;
  bd_oxygen : Q
}.

(** ["lifetime_totals"] *)
Record LifetimeTotals : Type := {
  lt_h2_total_kg : Q;
  lt_electricity_total_mwh : Q;
  lt_stack_replacements : Z;
  lt_average_sec : Q;
  lt_electrolyser_capex_eur : Q;
  lt_grid_fees_eur : Q;
  lt_taxes_eur : Q;
  lt_subsidies_total_eur : Q;
  lt_oxygen_revenues_total_eur : Q
}.

Record EHOResult : Type := {
  res_currency : string;
  lcoh_total : Q;
  breakdown_eur_per_kg : Breakdown;
  lifetime_totals : LifetimeTotals
}.

Definition simulate_eho (fuel : nat) (s : EHOScenario) : fueled EHOResult :=
  let e := electrolyser s in
  let ec := economics s in
  let cap := capex s in
  let sb := subs s in
  let op := ops s in
  let op_hours := operating_hours_per_year op * availability op in
  let+ n_repl :=
    lift (stack_replacements (economic_life_years ec) op_hours
            (stack_durability_h e)) in
  let+ avg_sec_el_kwh_kg :=
    average_sec_kwh_per_kg_over_life fuel (sec_start_kwh_per_kg e)
      (degradation_pct_per_1000h e) (economic_life_years ec) op_hours
      (stack_durability_h e) in
  let avg_sec_total_kwh_kg :=
    add_compression_to_sec avg_sec_el_kwh_kg (compression_kwh_per_kg e) in
  lift (
    let* cap_kg_h := capacity_kg_per_h (power_kw e) avg_sec_total_kwh_kg in
    let h2_total_kg :=
      hydrogen_output_kg op_hours cap_kg_h (economic_life_years ec) in
    let elec_mwh := electricity_consumption_mwh h2_total_kg avg_sec_total_kwh_kg in
    let capex_eur :=
      electrolyser_capex_eur (electrolyser_capex_eur_per_kw cap)
        (installed_power_kw cap) in
    let* ann_capex_eur_year :=
      annualised_capex_eur_per_year capex_eur (discount_rate ec)
        (economic_life_years ec) in
    let* h2_per_year := pydiv h2_total_kg (inject_Z (economic_life_years ec)) in
    let* lcoh_capex_eur_per_kg :=
      pydiv ann_capex_eur_year (pymax h2_per_year eps12) in
    let elec_cost_eur :=
      electricity_cost_eur elec_mwh (electricity_price_eur_per_mwh ec) in
    let* lcoh_electricity := electricity_cost_eur_per_kg elec_cost_eur h2_total_kg in
    let other_eur :=
      other_opex_total_eur capex_eur (other_opex_pct_capex_per_year ec)
        (economic_life_years ec) in
    let stack_eur :=
      stack_replacement_total_eur capex_eur (stack_replacement_pct_capex ec)
        n_repl in
    let* lcoh_other_opex := other_opex_eur_per_kg other_eur stack_eur h2_total_kg in
    let grid_eur := grid_fees_total_eur elec_mwh (grid_fees_eur_per_mwh ec) in
    let* lcoh_grid := grid_fees_eur_per_kg grid_eur h2_total_kg in
    let tax_eur := taxes_total_eur elec_mwh (electricity_taxes_eur_per_mwh ec) in
    let* lcoh_taxes := taxes_eur_per_kg tax_eur h2_total_kg in
    let subs_eur_total :=
      subsidies_total_eur (installed_power_kw cap) (capex_subsidy_eur_per_kw sb)
        h2_total_kg (h2_premium_eur_per_kg sb) elec_mwh
        (reduction_grid_or_tax_eur_per_mwh sb) in
    let* lcoh_subs := subsidies_eur_per_kg subs_eur_total h2_total_kg in
    let o2_kg := oxygen_output_kg h2_total_kg in
    let o2_eur := oxygen_revenues_total_eur o2_kg (oxygen_sale_price_eur_per_ton sb) in
    let* lcoh_o2 := oxygen_revenues_eur_per_kg o2_eur h2_total_kg in
    let lcoh_total_ :=
      lcoh_capex_eur_per_kg + lcoh_electricity + lcoh_other_opex
      + lcoh_grid + lcoh_taxes + lcoh_subs + lcoh_o2 in
    Ok {| res_currency := currency s;
          lcoh_total := lcoh_total_;
          breakdown_eur_per_kg :=
            {| bd_capex := lcoh_capex_eur_per_kg;
               bd_electricity := lcoh_electricity;
               bd_other_opex := lcoh_other_opex;
               bd_grid_fees := lcoh_grid;
               bd_taxes := lcoh_taxes;
               bd_subsidies := lcoh_subs;
               bd_oxygen := lcoh_o2 |};
          lifetime_totals :=
            {| lt_h2_total_kg := h2_total_kg;
               lt_electricity_total_mwh := elec_mwh;
               lt_stack_replacements := n_repl;
               lt_average_sec := avg_sec_total_kwh_kg;
               lt_electrolyser_capex_eur := capex_eur;
               lt_grid_fees_eur := grid_eur;
               lt_taxes_eur := tax_eur;
               lt_subsidies_total_eur := subs_eur_total;
               lt_oxygen_revenues_total_eur := o2_eur |} |}).

(** [EHOScenario()]: every field at its dataclass default. *)
Definition scenario_default : EHOScenario :=
  {| electrolyser :=
       {| power_kw := 5000; sec_start_kwh_per_kg := 524 # 10;
          stack_durability_h := 80000; degradation_pct_per_1000h := 12 # 100;
          compression_kwh_per_kg := 25 # 10 |};
     economics :=
       {| economic_life_years := 25; discount_rate := 6 # 100;
          other_opex_pct_capex_per_year := 3 # 100;
          stack_replacement_pct_capex := 25 # 100;
          electricity_price_eur_per_mwh := 50; grid_fees_eur_per_mwh := 0;
          electricity_taxes_eur_per_mwh := 0 |};
     capex := {| electrolyser_capex_eur_per_kw := 700; installed_power_kw := 5000 |};
     subs :=
       {| capex_subsidy_eur_per_kw := 0; h2_premium_eur_per_kg := 0;
          reduction_grid_or_tax_eur_per_mwh := 0;
          oxygen_sale_price_eur_per_ton := 0 |};
     ops := {| operating_hours_per_year := 4000; availability := 1 |};
     currency := "EUR" |}.

End Eho.

(* ================================================================== *)
(** * Sensitivity driver ([sensibilidade_h2verde.py])                   *)
(* ================================================================== *)

Module Sens.

Import Tea.

(** [dotted.split(".")] *)
Fixpoint split_dot_from (acc s : string) : list string :=
  match s with
  | EmptyString => [acc]
  | String ch rest =>
      if Ascii.eqb ch "."%char then acc :: split_dot_from EmptyString rest
      else split_dot_from (acc ++ String ch EmptyString)%string rest
  end.

Definition split_dot (s : string) : list string := split_dot_from EmptyString s.

(** A number stored into an [int]-annotated field.  Python stores any
    object; a scenario of the embedding holds a [Z] there, so only whole
    numbers are stored and any other value is reported as [NotEmbedded]. *)
Definition as_int (v : Q) : result Z :=
  match Qden (Qred v) with
  | xH => Ok (Qnum (Qred v))
  | _ => Raise NotEmbedded
  end.

Local Notation "a =? b" := (String.eqb a b) : string_scope.
Local Open Scope string_scope.

(** [setattr(obj, leaf, value)] on each value group.  A name that is not a
    field creates a fresh attribute that no computation reads: the group is
    returned as it is (so is the string-valued [nome]). *)

Definition set_eletrolisador (e : EspecificacaoEletrolisador) (leaf : string) (v : Q)
    : result EspecificacaoEletrolisador :=
  let '(Build_EspecificacaoEletrolisador n sec fmin disp pot vida degr frac) := e in
  if leaf =? "sec_kwh_por_kg" then
    Ok (Build_EspecificacaoEletrolisador n v fmin disp pot vida degr frac)
  else if leaf =? "fracao_minima_carga" then
    Ok (Build_EspecificacaoEletrolisador n sec v disp pot vida degr frac)
  else if leaf =? "disponibilidade" then
    Ok (Build_EspecificacaoEletrolisador n sec fmin v pot vida degr frac)
  else if leaf =? "potencia_kw" then
    Ok (Build_EspecificacaoEletrolisador n sec fmin disp v vida degr frac)
  else if leaf =? "vida_util_anos" then
    let* z := as_int v in
    Ok (Build_EspecificacaoEletrolisador n sec fmin disp pot z degr frac)
  else if leaf =? "degradacao_pct_ano" then
    Ok (Build_EspecificacaoEletrolisador n sec fmin disp pot vida v frac)
  else if leaf =? "fracao_reposicao_stack_capex" then
    Ok (Build_EspecificacaoEletrolisador n sec fmin disp pot vida degr v)
  else Ok e.

Definition set_bop (b : BalanceOfPlant) (leaf : string) (v : Q) : result BalanceOfPlant :=
  let '(Build_BalanceOfPlant f omf omv) := b in
  if leaf =? "fracao_capex_bop" then Ok (Build_BalanceOfPlant v omf omv)
  else if leaf =? "om_fixo_pct_capex_ano" then Ok (Build_BalanceOfPlant f v omv)
  else if leaf =? "om_variavel_por_kg" then Ok (Build_BalanceOfPlant f omf v)
  else Ok b.

Definition set_energia (t : TarifaEnergia) (leaf : string) (v : Q) : result TarifaEnergia :=
  let '(Build_TarifaEnergia p d dc) := t in
  if leaf =? "preco_mwh" then Ok (Build_TarifaEnergia v d dc)
  else if leaf =? "demanda_kw_mes" then Ok (Build_TarifaEnergia p v dc)
  else if leaf =? "demanda_contratada_kw" then Ok (Build_TarifaEnergia p d v)
  else Ok t.

Definition set_agua (a : AguaUtilidades) (leaf : string) (v : Q) : result AguaUtilidades :=
  let '(Build_AguaUtilidades custo litros) := a in
  if leaf =? "custo_agua_m3" then Ok (Build_AguaUtilidades v litros)
  else if leaf =? "litros_por_kg" then Ok (Build_AguaUtilidades custo v)
  else Ok a.

Definition set_cae (x : CompressaoArmazenamentoEntrega) (leaf : string) (v : Q)
    : result CompressaoArmazenamentoEntrega :=
  let '(Build_CompressaoArmazenamentoEntrega pr en cap hb sec) := x in
  if leaf =? "pressao_entrega_bar" then
    Ok (Build_CompressaoArmazenamentoEntrega v en cap hb sec)
  else if leaf =? "energia_compressao_kwh_por_kg" then
    Ok (Build_CompressaoArmazenamentoEntrega pr v cap hb sec)
  else if leaf =? "capex_armazenamento_por_kg" then
    Ok (Build_CompressaoArmazenamentoEntrega pr en v hb sec)
  else if leaf =? "horas_buffer" then
    Ok (Build_CompressaoArmazenamentoEntrega pr en cap v sec)
  else if leaf =? "secagem_purificacao_por_kg" then
    Ok (Build_CompressaoArmazenamentoEntrega pr en cap hb v)
  else Ok x.

Definition set_financiamento (f : Financiamento) (leaf : string) (v : Q)
    : result Financiamento :=
  let '(Build_Financiamento w infl vida fd cont) := f in
  if leaf =? "wacc_real" then Ok (Build_Financiamento v infl vida fd cont)
  else if leaf =? "inflacao_pct" then Ok (Build_Financiamento w v vida fd cont)
  else if leaf =? "vida_projeto_anos" then
    let* z := as_int v in Ok (Build_Financiamento w infl z fd cont)
  else if leaf =? "fracao_divida" then Ok (Build_Financiamento w infl vida v cont)
  else if leaf =? "contingencia_capex_pct" then
    Ok (Build_Financiamento w infl vida fd v)
  else Ok f.

Definition set_capex (k : CapexDetalhado) (leaf : string) (v : Q) : result CapexDetalhado :=
  let '(Build_CapexDetalhado el fb inst dono inter agua_ comp) := k in
  if leaf =? "eletrolisador_capex_por_kw" then
    Ok (Build_CapexDetalhado v fb inst dono inter agua_ comp)
  else if leaf =? "fracao_bop" then
    Ok (Build_CapexDetalhado el v inst dono inter agua_ comp)
  else if leaf =? "instalacao_pct" then
    Ok (Build_CapexDetalhado el fb v dono inter agua_ comp)
  else if leaf =? "custos_dono_pct" then
    Ok (Build_CapexDetalhado el fb inst v inter agua_ comp)
  else if leaf =? "interconexao_por_kw" then
    Ok (Build_CapexDetalhado el fb inst dono v agua_ comp)
  else if leaf =? "capex_tratamento_agua" then
    Ok (Build_CapexDetalhado el fb inst dono inter v comp)
  else if leaf =? "compressor_capex_por_kg_h" then
    Ok (Build_CapexDetalhado el fb inst dono inter agua_ v)
  else Ok k.

(** [_set_attr_dotted(obj, dotted, value)] on a scenario, returning the
    updated scenario.

    - one segment: [setattr] on the scenario itself.  Storing a number over
      a value group leaves a scenario whose next [simular] raises
      [AttributeError] at the first read through that group; the store is
      reported as that [AttributeError].  A number stored over [moeda] would
      become the unit of the line items: [NotEmbedded].  A number stored
      under a fresh name is read by no computation.
    - two segments: [getattr] of the group (absent: [AttributeError]; a
      string or a number: [AttributeError] from [setattr]), then [setattr].
    - more segments: the walk ends on a string or a number, on which
      [getattr] or the final [setattr] raises [AttributeError]. *)
Definition _set_attr_dotted (c : CenarioEntrada) (dotted : string) (v : Q)
    : result CenarioEntrada :=
  let '(Build_CenarioEntrada m el b en ag ca fi cx fc ha em) := c in
  match split_dot dotted with
  | [leaf] =>
      if leaf =? "fator_capacidade_anual" then
        Ok (Build_CenarioEntrada m el b en ag ca fi cx v ha em)
      else if leaf =? "horas_ano" then
        let* z := as_int v in Ok (Build_CenarioEntrada m el b en ag ca fi cx fc z em)
      else if leaf =? "emissoes_rede_kg_mwh" then
        Ok (Build_CenarioEntrada m el b en ag ca fi cx fc ha v)
      else if (leaf =? "eletrolisador") || (leaf =? "bop") || (leaf =? "energia")
              || (leaf =? "agua") || (leaf =? "cae") || (leaf =? "financiamento")
              || (leaf =? "capex")
      then Raise AttributeError
      else if leaf =? "moeda" then Raise NotEmbedded
      else Ok c
  | [grupo; leaf] =>
      if grupo =? "eletrolisador" then
        let* x := set_eletrolisador el leaf v in
        Ok (Build_CenarioEntrada m x b en ag ca fi cx fc ha em)
      else if grupo =? "bop" then
        let* x := set_bop b leaf v in
        Ok (Build_CenarioEntrada m el x en ag ca fi cx fc ha em)
      else if grupo =? "energia" then
        let* x := set_energia en leaf v in
        Ok (Build_CenarioEntrada m el b x ag ca fi cx fc ha em)
      else if grupo =? "agua" then
        let* x := set_agua ag leaf v in
        Ok (Build_CenarioEntrada m el b en x ca fi cx fc ha em)
      else if grupo =? "cae" then
        let* x := set_cae ca leaf v in
        Ok (Build_CenarioEntrada m el b en ag x fi cx fc ha em)
      else if grupo =? "financiamento" then
        let* x := set_financiamento fi leaf v in
        Ok (Build_CenarioEntrada m el b en ag ca x cx fc ha em)
      else if grupo =? "capex" then
        let* x := set_capex cx leaf v in
        Ok (Build_CenarioEntrada m el b en ag ca fi x fc ha em)
      else Raise AttributeError
  | _ => Raise AttributeError
  end.

Local Close Scope string_scope.

(** [copy.deepcopy]: scenarios are values, the copy is the scenario. *)
Definition _clone_cenario (c : CenarioEntrada) : CenarioEntrada := c.

(** One entry of [parametros]. *)
Record Parametro : Type := {
  p_nome : string;
  p_path : string;
  p_baixo : Q;
  p_alto : Q
}.

(** One dictionary of the list returned by [tornado_lcoh]. *)
Record LinhaTornado : Type := {
  t_nome : string;
  t_path : string;
  lcoh_referencia : Q;
  valor_baixo : Q;
  lcoh_baixo : Q;
  valor_alto : Q;
  lcoh_alto : Q;
  delta : Q;
  impacto_abs : Q
}.

(** The body of [for p in parametros]. *)
Definition tornado_linha (cenario_base : CenarioEntrada) (lcoh_ref : Q) (p : Parametro)
    : result LinhaTornado :=
  let nome := p_nome p in
  let path := p_path p in
  let v_lo := p_baixo p in
  let v_hi := p_alto p in
  let c_lo := _clone_cenario cenario_base in
  let* c_lo := _set_attr_dotted c_lo path v_lo in
  let* out_lo := simular c_lo in
  let l_lo := lcoh out_lo in
  let c_hi := _clone_cenario cenario_base in
  let* c_hi := _set_attr_dotted c_hi path v_hi in
  let* out_hi := simular c_hi in
  let l_hi := lcoh out_hi in
  Ok {| t_nome := nome; t_path := path; lcoh_referencia := lcoh_ref;
        valor_baixo := v_lo; lcoh_baixo := l_lo;
        valor_alto := v_hi; lcoh_alto := l_hi;
        delta := l_hi - l_lo; impacto_abs := Qabs (l_hi - l_lo) |}.

(** The [for] loop, appending in order. *)
Fixpoint tornado_linhas (cenario_base : CenarioEntrada) (lcoh_ref : Q)
    (parametros : list Parametro) : result (list LinhaTornado) :=
  match parametros with
  | [] => Ok []
  | p :: ps =>
      let* r := tornado_linha cenario_base lcoh_ref p in
      let* rs := tornado_linhas cenario_base lcoh_ref ps in
      Ok (r :: rs)
  end.

(** [list.sort(key=..., reverse=True)]: a stable sort, largest key first;
    rows of equal key keep their order.  A stable sort has one possible
    result, computed here by insertion. *)
Section SortDesc.

Context {A : Type} (key : A -> Q).

Fixpoint insert_desc (x : A) (l : list A) : list A :=
  match l with
  | [] => [x]
  | y :: ys =>
      if Qlt_le_dec (key x) (key y) then y :: insert_desc x ys
      else x :: y :: ys
  end.

Definition sort_desc (l : list A) : list A := fold_right insert_desc [] l.

End SortDesc.

Definition tornado_lcoh (cenario_base : CenarioEntrada) (parametros : list Parametro)
    : result (list LinhaTornado) :=
  let* base_out := simular cenario_base in
  let lcoh_ref := lcoh base_out in
  let* resultados := tornado_linhas cenario_base lcoh_ref parametros in
  Ok (sort_desc impacto_abs resultados).

End Sens.

(* ================================================================== *)
(** * The specification's formulas and the scenarios used below         *)
(* ================================================================== *)

Module TeaSpec.

Import Tea.

(** The capital recovery factor as the specification words it. *)
Definition capitalRecoveryFactor_spec (rate : Q) (periods : Z) : Q :=
  if (periods <=? 0)%Z then 1
  else if Qeq_bool rate 0 then 1 / inject_Z periods
  else rate * (1 + rate) ^ periods / ((1 + rate) ^ periods - 1).

(** The rates and periods at which the annuity formula has no pole. *)
Definition crf_regular (rate : Q) (periods : Z) : Prop :=
  (periods <= 0)%Z \/ rate == 0 \/ ~ (1 + rate) ^ periods == 1.

(** Annual production = power x (hours/year x capacity factor x
    availability) / SEC. *)
Definition producao_anual_spec (c : CenarioEntrada) : Q :=
  potencia_kw (eletrolisador c)
  * (inject_Z (horas_ano c) * fator_capacidade_anual c
     * disponibilidade (eletrolisador c))
  / sec_kwh_por_kg (eletrolisador c).

(** Straight-line stack reserve = (power x unit CAPEX x replacement
    fraction) / stack life. *)
Definition reserva_stack_spec (c : CenarioEntrada) : Q :=
  (potencia_kw (eletrolisador c) * eletrolisador_capex_por_kw (capex c)
   * fracao_reposicao_stack_capex (eletrolisador c))
  / inject_Z (vida_util_anos (eletrolisador c)).

(** The value of the line named "Total CAPEX". *)
Definition total_capex_de (itens : list ItemLinha) : Q :=
  match find (fun i => String.eqb (item_nome i) "Total CAPEX") itens with
  | Some i => valor i
  | None => 0
  end.

(** The variable-OPEX lines that [simular] sums (the stack reserve line
    is appended to them only in the output list). *)
Definition itens_variaveis (c : CenarioEntrada) (r : Resultado) : list ItemLinha :=
  snd (fst (fst (calcular_energia_var c (h2_anual_kg r)))).

(** LCOH = (annualized CAPEX + fixed OPEX + variable OPEX + annual stack
    reserve) / annual production. *)
Definition lcoh_spec (c : CenarioEntrada) (r : Resultado) : Q :=
  (total_capex_de (res_capex r)
     * capitalRecoveryFactor_spec (wacc_real (financiamento c))
         (vida_projeto_anos (financiamento c))
   + pysum (map valor (res_opex_fixo r))
   + pysum (map valor (itens_variaveis c r))
   + reserva_stack_spec c)
  / producao_anual_spec c.

(** The names of the CAPEX lines, in order: electrolyser, balance of
    plant, interconnection, compressor, storage buffer, water treatment,
    installation/EPC, owner's costs, contingency, total CAPEX. *)
Definition capex_nomes : list string :=
  [ "Eletrolisador"; "Balance of Plant"; "Interconexão"; "Compressor";
    "Armazenamento Buffer"; "Tratamento Água"; "Instalação/EPC";
    "Custos do Dono"; "Contingência"; "Total CAPEX" ]%string.

(** Operating hours = hours/year x availability. *)
Definition horas_operacao (c : CenarioEntrada) : Q :=
  inject_Z (horas_ano c) * disponibilidade (eletrolisador c).

(** Storage = ((annual production / operating hours) x buffer hours) x unit
    storage cost. *)
Definition armazenamento_spec (c : CenarioEntrada) (h2_anual : Q) : Q :=
  ((h2_anual / horas_operacao c) * horas_buffer (cae c))
  * capex_armazenamento_por_kg (cae c).

(** The relations between the ten CAPEX values. *)
Definition capex_relacoes (c : CenarioEntrada) (h2_anual : Q) (vs : list Q) : Prop :=
  match vs with
  | [el; bp; ic; cp; ar; ag; ins; dono; cont; tot] =>
      let diretos := el + bp + ic + cp + ar + ag in
      ins == diretos * (instalacao_pct (capex c) / 100)
      /\ dono == diretos * (custos_dono_pct (capex c) / 100)
      /\ cont == (diretos + ins + dono)
                 * (contingencia_capex_pct (financiamento c) / 100)
      /\ tot == diretos + ins + dono + cont
      /\ ar == armazenamento_spec c h2_anual
  | _ => False
  end.

(** Scenario updates. *)

Definition com_eletrolisador (c : CenarioEntrada) (e : EspecificacaoEletrolisador)
    : CenarioEntrada :=
  let '(Build_CenarioEntrada m _ b en ag ca fi cx fc ha em) := c in
  Build_CenarioEntrada m e b en ag ca fi cx fc ha em.

Definition com_degradacao (c : CenarioEntrada) (d : Q) : CenarioEntrada :=
  let '(Build_EspecificacaoEletrolisador n sec fmin disp pot vida _ frac) :=
    eletrolisador c in
  com_eletrolisador c (Build_EspecificacaoEletrolisador n sec fmin disp pot vida d frac).

Definition com_sec (c : CenarioEntrada) (sec : Q) : CenarioEntrada :=
  let '(Build_EspecificacaoEletrolisador n _ fmin disp pot vida degr frac) :=
    eletrolisador c in
  com_eletrolisador c
    (Build_EspecificacaoEletrolisador n sec fmin disp pot vida degr frac).

Definition com_disponibilidade (c : CenarioEntrada) (disp : Q) : CenarioEntrada :=
  let '(Build_EspecificacaoEletrolisador n sec fmin _ pot vida degr frac) :=
    eletrolisador c in
  com_eletrolisador c
    (Build_EspecificacaoEletrolisador n sec fmin disp pot vida degr frac).

Definition com_wacc (c : CenarioEntrada) (w : Q) : CenarioEntrada :=
  let '(Build_CenarioEntrada m e b en ag ca fi cx fc ha em) := c in
  let '(Build_Financiamento _ infl vida fd cont) := fi in
  Build_CenarioEntrada m e b en ag ca (Build_Financiamento w infl vida fd cont)
    cx fc ha em.

(** The default scenario with SEC = 1e-13 kWh/kg. *)
Definition cenario_sec_minusculo : CenarioEntrada :=
  com_sec cenario_padrao (1 # 10000000000000).

(** The default scenario with availability = 1e-17. *)
Definition cenario_disp_minuscula : CenarioEntrada :=
  com_disponibilidade cenario_padrao (1 # 100000000000000000).

(** The default scenario with WACC = -2 (project life 20 years). *)
Definition cenario_wacc_polo : CenarioEntrada := com_wacc cenario_padrao (-2).

End TeaSpec.

Module EhoSpec.

Import Eho.



(** Subsidies per mass = -(grant x installed kW + premium x lifetime
    production + reduction x lifetime energy) / lifetime production. *)
Definition subsidies_spec (s : EHOScenario) (production energy : Q) : Q :=
  - (capex_subsidy_eur_per_kw (subs s) * installed_power_kw (capex s)
     + h2_premium_eur_per_kg (subs s) * production
     + reduction_grid_or_tax_eur_per_mwh (subs s) * energy)
  / production.

(** Oxygen contribution = -((8 x lifetime production) / 1000 x price per
    tonne) / lifetime production. *)
Definition oxygen_spec (s : EHOScenario) (production : Q) : Q :=
  - ((8 * production) / 1000 * oxygen_sale_price_eur_per_ton (subs s))
  / production.

(** The same two contributions with the divisor floored at 1e-12. *)
Definition subsidies_floored (s : EHOScenario) (production energy : Q) : Q :=
  - (capex_subsidy_eur_per_kw (subs s) * installed_power_kw (capex s)
     + h2_premium_eur_per_kg (subs s) * production
     + reduction_grid_or_tax_eur_per_mwh (subs s) * energy)
  / pymax production eps12.

Definition oxygen_floored (s : EHOScenario) (production : Q) : Q :=
  - ((8 * production) / 1000 * oxygen_sale_price_eur_per_ton (subs s))
  / pymax production eps12.

(** The loop variables on entry. *)
Definition blocks_init (sec0 durability_h : Q) : blocks :=
  {| sec_sum := 0; hours_counted := 0; hours_until_reset := durability_h;
     current_sec := sec0 |}.

(** Loop invariant, whatever the degradation: the horizon is not overrun,
    and the reset countdown is above 1e-9 h while the loop runs. *)
Definition progress_inv (total_hours : Q) (st : blocks) : Prop :=
  hours_counted st <= total_hours
  /\ (hours_counted st < total_hours - eps9 -> eps9 < hours_until_reset st).

(** Loop invariant at zero degradation: moreover the SEC never leaves
    [sec0] and the running sum is [sec0] times the hours covered. *)
Definition flat_inv (sec0 total_hours : Q) (st : blocks) : Prop :=
  current_sec st == sec0
  /\ sec_sum st == sec0 * hours_counted st
  /\ progress_inv total_hours st.




(** Scenario updates. *)

Definition com_stack_durability (s : EHOScenario) (d : Q) : EHOScenario :=
  {| electrolyser :=
       {| power_kw := power_kw (electrolyser s);
          sec_start_kwh_per_kg := sec_start_kwh_per_kg (electrolyser s);
          stack_durability_h := d;
          degradation_pct_per_1000h := degradation_pct_per_1000h (electrolyser s);
          compression_kwh_per_kg := compression_kwh_per_kg (electrolyser s) |};
     economics := economics s; capex := capex s; subs := subs s; ops := ops s;
     currency := currency s |}.

Definition com_economic_life (s : EHOScenario) (n : Z) : EHOScenario :=
  {| electrolyser := electrolyser s;
     economics :=
       {| economic_life_years := n;
          discount_rate := discount_rate (economics s);
          other_opex_pct_capex_per_year :=
            other_opex_pct_capex_per_year (economics s);
          stack_replacement_pct_capex := stack_replacement_pct_capex (economics s);
          electricity_price_eur_per_mwh :=
            electricity_price_eur_per_mwh (economics s);
          grid_fees_eur_per_mwh := grid_fees_eur_per_mwh (economics s);
          electricity_taxes_eur_per_mwh :=
            electricity_taxes_eur_per_mwh (economics s) |};
     capex := capex s; subs := subs s; ops := ops s; currency := currency s |}.

Definition com_installed_power (s : EHOScenario) (kw : Q) : EHOScenario :=
  {| electrolyser := electrolyser s; economics := economics s;
     capex :=
       {| electrolyser_capex_eur_per_kw := electrolyser_capex_eur_per_kw (capex s);
          installed_power_kw := kw |};
     subs := subs s; ops := ops s; currency := currency s |}.

Definition com_subs (s : EHOScenario) (sb : EHOSubsidiesAndRevenues) : EHOScenario :=
  {| electrolyser := electrolyser s; economics := economics s; capex := capex s;
     subs := sb; ops := ops s; currency := currency s |}.

(** The default scenario with a stack durability of 0 h. *)
Definition scenario_zero_durability : EHOScenario :=
  com_stack_durability scenario_default 0.

(** The default scenario with an economic life of 0 years. *)
Definition scenario_zero_life : EHOScenario :=
  com_economic_life scenario_default 0.

(** The default scenario over one year, with a grant of 100 EUR/kW, a
    premium of 1 EUR/kg, a reduction of 5 EUR/MWh and oxygen sold at
    50 EUR/t. *)
Definition scenario_subsidised : EHOScenario :=
  com_subs (com_economic_life scenario_default 1)
    {| capex_subsidy_eur_per_kw := 100; h2_premium_eur_per_kg := 1;
       reduction_grid_or_tax_eur_per_mwh := 5;
       oxygen_sale_price_eur_per_ton := 50 |}.

(** The default scenario over one year, with a grant of 100 EUR/kW as its
    only subsidy and an installed power of -5000 kW. *)
Definition scenario_negative_installed : EHOScenario :=
  com_installed_power
    (com_subs (com_economic_life scenario_default 1)
       {| capex_subsidy_eur_per_kw := 100; h2_premium_eur_per_kg := 0;
          reduction_grid_or_tax_eur_per_mwh := 0;
          oxygen_sale_price_eur_per_ton := 0 |})
    (-5000).

End EhoSpec.

Module SensSpec.

Import Tea Sens.

(** Row [r] is the tornado row of parameter [p]: its low and high LCOH are
    those of the base scenario with the parameter's path set to the low
    and to the high value. *)
Definition linha_de (cenario_base : CenarioEntrada) (p : Parametro) (r : LinhaTornado)
    : Prop :=
  exists c_lo c_hi out_lo out_hi,
    _set_attr_dotted cenario_base (p_path p) (p_baixo p) = Ok c_lo
    /\ simular c_lo = Ok out_lo
    /\ _set_attr_dotted cenario_base (p_path p) (p_alto p) = Ok c_hi
    /\ simular c_hi = Ok out_hi
    /\ t_nome r = p_nome p /\ t_path r = p_path p
    /\ lcoh_baixo r = lcoh out_lo /\ lcoh_alto r = lcoh out_hi
    /\ impacto_abs r = Qabs (lcoh_alto r - lcoh_baixo r).

(** Both runs of parameter [p] go through. *)
Definition parametro_corre (cenario_base : CenarioEntrada) (p : Parametro) : Prop :=
  exists c_lo c_hi out_lo out_hi,
    _set_attr_dotted cenario_base (p_path p) (p_baixo p) = Ok c_lo
    /\ simular c_lo = Ok out_lo
    /\ _set_attr_dotted cenario_base (p_path p) (p_alto p) = Ok c_hi
    /\ simular c_hi = Ok out_hi.

(** Largest absolute delta first. *)
Definition impacto_desc (a b : LinhaTornado) : Prop := impacto_abs b <= impacto_abs a.

(** Two of the parameters of the module's own example. *)
Definition parametros_exemplo : list Parametro :=
  [ {| p_nome := "Agua (R$/m3)"; p_path := "agua.custo_agua_m3";
       p_baixo := 3; p_alto := 12 |};
    {| p_nome := "Preco de Energia"; p_path := "energia.preco_mwh";
       p_baixo := 250; p_alto := 450 |} ].

(** A row whose LCOH runs are [lo] and [hi]. *)
Definition linha_exemplo (nome : string) (lo hi : Q) : LinhaTornado :=
  {| t_nome := nome; t_path := nome; lcoh_referencia := lo;
     valor_baixo := 0; lcoh_baixo := lo; valor_alto := 1; lcoh_alto := hi;
     delta := hi - lo; impacto_abs := Qabs (hi - lo) |}.

End SensSpec.

(* ================================================================== *)
(** * Sensitivity driver: sweeps, grid and spider                       *)
(* ================================================================== *)

Module SensSweep.

Import Tea Sens.

(** One dictionary of the list returned by [sensibilidade_1d]. *)
Record Ponto : Type := {
  pt_valor : Q;
  pt_lcoh : Q;
  pt_h2_anual_kg : Q
}.

(** The body of [for v in valores]. *)
Definition ponto_1d (cenario_base : CenarioEntrada) (parametro : string) (v : Q)
    : result Ponto :=
  let c := _clone_cenario cenario_base in
  let* c := _set_attr_dotted c parametro v in
  let* out := simular c in
  Ok {| pt_valor := v; pt_lcoh := lcoh out; pt_h2_anual_kg := h2_anual_kg out |}.

Fixpoint sensibilidade_1d (cenario_base : CenarioEntrada) (parametro : string)
    (valores : list Q) : result (list Ponto) :=
  match valores with
  | [] => Ok []
  | v :: vs =>
      let* r := ponto_1d cenario_base parametro v in
      let* rs := sensibilidade_1d cenario_base parametro vs in
      Ok (r :: rs)
  end.

(** One dictionary of the ["grid"] list of [sensibilidade_2d]. *)
Record PontoGrade : Type := {
  g_x : Q;
  g_y : Q;
  g_lcoh : Q
}.

(** The dictionary returned by [sensibilidade_2d]. *)
Record Grade : Type := {
  param_x : string;
  param_y : string;
  grid : list PontoGrade
}.

(** The body of the inner loop: both stores on one copy, the second after
    the first. *)
Definition ponto_2d (cenario_base : CenarioEntrada) (px : string) (vx : Q)
    (py : string) (vy : Q) : result PontoGrade :=
  let c := _clone_cenario cenario_base in
  let* c := _set_attr_dotted c px vx in
  let* c := _set_attr_dotted c py vy in
  let* out := simular c in
  Ok {| g_x := vx; g_y := vy; g_lcoh := lcoh out |}.

(** [for vy in valores_y], for one [vx]. *)
Fixpoint grade_linha (cenario_base : CenarioEntrada) (px : string) (vx : Q)
    (py : string) (valores_y : list Q) : result (list PontoGrade) :=
  match valores_y with
  | [] => Ok []
  | vy :: vys =>
      let* r := ponto_2d cenario_base px vx py vy in
      let* rs := grade_linha cenario_base px vx py vys in
      Ok (r :: rs)
  end.

(** [for vx in valores_x], appending to one list. *)
Fixpoint grade_pontos (cenario_base : CenarioEntrada) (px : string)
    (valores_x : list Q) (py : string) (valores_y : list Q)
    : result (list PontoGrade) :=
  match valores_x with
  | [] => Ok []
  | vx :: vxs =>
      let* linha := grade_linha cenario_base px vx py valores_y in
      let* resto := grade_pontos cenario_base px vxs py valores_y in
      Ok (linha ++ resto)
  end.

Definition sensibilidade_2d (cenario_base : CenarioEntrada) (px : string)
    (valores_x : list Q) (py : string) (valores_y : list Q) : result Grade :=
  let* g := grade_pontos cenario_base px valores_x py valores_y in
  Ok {| param_x := px; param_y := py; grid := g |}.

(** One entry of [definicoes]. *)
Record Definicao : Type := {
  d_nome : string;
  d_path : string;
  d_valores : list Q
}.

(** One dictionary of the ["series"] list. *)
Record Serie : Type := {
  s_nome : string;
  s_path : string;
  pontos : list Ponto
}.

(** [spider_multivariavel]: the ["series"] list of the dictionary returned. *)
Fixpoint spider_multivariavel (cenario_base : CenarioEntrada)
    (definicoes : list Definicao) : result (list Serie) :=
  match definicoes with
  | [] => Ok []
  | d :: ds =>
      let* pts := sensibilidade_1d cenario_base (d_path d) (d_valores d) in
      let* rest := spider_multivariavel cenario_base ds in
      Ok ({| s_nome := d_nome d; s_path := d_path d; pontos := pts |} :: rest)
  end.

(** [range(n)] *)
Definition range (n : Z) : list Z := map Z.of_nat (seq 0 (Z.to_nat n)).

Definition varredura_linear (inicio fim : Q) (n : Z) : result (list Q) :=
  if (n <=? 1)%Z then Ok [inicio]
  else
    let* passo := pydiv (fim - inicio) (inject_Z (n - 1)) in
    Ok (map (fun i => inicio + inject_Z i * passo) (range n)).

End SensSweep.

(* ================================================================== *)
(** * Sensitivity driver: Monte Carlo                                   *)
(* ================================================================== *)

Module SensMC.

Import Tea Sens.

(** A float of the summary: a number or [float("nan")]. *)
Inductive pyfloat : Type :=
| Fin (q : Q)
| NaN.

(** [int(x)] on a float: the fractional part is dropped. *)
Definition pyint (x : Q) : Z :=
  if Qlt_le_dec x 0 then Qceiling x else Qfloor x.

(** [str.lower()] on the letters A-Z.  The two literals the result is
    compared with are made of letters no other character lowers to. *)
Definition lower_char (ch : ascii) : ascii :=
  let n := N_of_ascii ch in
  if ((65 <=? n) && (n <=? 90))%N then ascii_of_N (n + 32) else ch.

Fixpoint lower (s : string) : string :=
  match s with
  | EmptyString => EmptyString
  | String ch rest => String (lower_char ch) (lower rest)
  end.

(** One entry of [distribuicoes].  ["tipo"] may be absent; of the four
    numeric keys only the two of the branch taken are read, and the record
    holds a value for each. *)
Record Distribuicao : Type := {
  dist_path : string;
  dist_tipo : option string;
  dist_media : Q;
  dist_desvio : Q;
  dist_min : Q;
  dist_max : Q
}.

(** [sorted(xs)]: stable, smallest first. *)
Fixpoint insert_asc (x : Q) (l : list Q) : list Q :=
  match l with
  | [] => [x]
  | y :: ys => if Qlt_le_dec y x then y :: insert_asc x ys else x :: y :: ys
  end.

Definition sorted (l : list Q) : list Q := fold_right insert_asc [] l.

(** The ["lcoh"] dictionary of the result. *)
Record Resumo : Type := {
  amostras : list Q;
  r_min : pyfloat;
  r_max : pyfloat;
  r_media : pyfloat;
  r_p5 : pyfloat;
  r_p50 : pyfloat;
  r_p95 : pyfloat
}.

(** The dictionary returned by [monte_carlo_lcoh]. *)
Record ResultadoMC : Type := {
  mc_n : Z;
  mc_lcoh : Resumo
}.

(** The inner function [_pct] on a sorted list of length [n].  For the
    three percentiles asked for the indices stay inside the list; the
    default of [nth] is never read. *)
Definition _pct (lcohs_sorted : list Q) (n : Z) (p : Q) : pyfloat :=
  if (n =? 0)%Z then NaN
  else
    let k := inject_Z (n - 1) * (p / 100) in
    let f := pyint k in
    let cidx := Z.min (f + 1) (n - 1) in
    let frac := k - inject_Z f in
    Fin (nth (Z.to_nat f) lcohs_sorted 0 * (1 - frac)
         + nth (Z.to_nat cidx) lcohs_sorted 0 * frac).

(** The statistics computed after the sampling loop. *)
Definition resumir (lcohs : list Q) : result ResultadoMC :=
  let lcohs_sorted := sorted lcohs in
  let n := Z.of_nat (List.length lcohs_sorted) in
  let* media :=
    if (n =? 0)%Z then Ok NaN
    else let* m := pydiv (pysum lcohs_sorted) (inject_Z n) in Ok (Fin m) in
  let resumo :=
    {| amostras := lcohs;
       r_min := if (n =? 0)%Z then NaN else Fin (nth 0 lcohs_sorted 0);
       r_max := if (n =? 0)%Z then NaN else Fin (last lcohs_sorted 0);
       r_media := media;
       r_p5 := _pct lcohs_sorted n 5;
       r_p50 := _pct lcohs_sorted n 50;
       r_p95 := _pct lcohs_sorted n 95 |} in
  Ok {| mc_n := n; mc_lcoh := resumo |}.

Section Sampler.

(** The state of the [random] module and its three functions used here;
    they are the Python library's, not this repository's. *)
Variable rng : Type.
Variable seed : Z -> rng.
Variable gauss : rng -> Q -> Q -> Q * rng.
Variable uniform : rng -> Q -> Q -> Q * rng.

(** [for d in distribuicoes]: one draw and one store per entry. *)
Fixpoint sortear (c : CenarioEntrada) (g : rng) (distribuicoes : list Distribuicao)
    : result (CenarioEntrada * rng) :=
  match distribuicoes with
  | [] => Ok (c, g)
  | d :: ds =>
      let path := dist_path d in
      let tipo :=
        lower (match dist_tipo d with Some t => t | None => "uniforme"%string end) in
      let* draw :=
        if String.eqb tipo "normal" then Ok (gauss g (dist_media d) (dist_desvio d))
        else if String.eqb tipo "uniforme" then
          Ok (uniform g (dist_min d) (dist_max d))
        else Raise ValueError in
      let '(val, g') := draw in
      let* c' := _set_attr_dotted c path val in
      sortear c' g' ds
  end.

(** [for _ in range(n_amostras)], the LCOH of each sample in draw order. *)
Fixpoint amostrar (cenario_base : CenarioEntrada) (distribuicoes : list Distribuicao)
    (n : nat) (g : rng) : result (list Q) :=
  match n with
  | O => Ok []
  | S n' =>
      let c := _clone_cenario cenario_base in
      let* drawn := sortear c g distribuicoes in
      let '(c', g') := drawn in
      let* out := simular c' in
      let* rest := amostrar cenario_base distribuicoes n' g' in
      Ok (lcoh out :: rest)
  end.

(** [g0] is the state of the generator on entry, kept when [semente] is
    [None]. *)
Definition monte_carlo_lcoh (g0 : rng) (cenario_base : CenarioEntrada)
    (distribuicoes : list Distribuicao) (n_amostras : Z) (semente : option Z)
    : result ResultadoMC :=
  let g := match semente with Some z => seed z | None => g0 end in
  let* lcohs := amostrar cenario_base distribuicoes (Z.to_nat n_amostras) g in
  resumir lcohs.

End Sampler.

End SensMC.

(* ================================================================== *)
(** * Reference quantities for the further properties                   *)
(* ================================================================== *)

Module TeaCosts.

Import Tea TeaSpec.

(** The production [producao_anual_kg] returns: the SEC floored at 1e-12. *)
Definition h2_anual_de (c : CenarioEntrada) : Q :=
  potencia_kw (eletrolisador c)
  * (inject_Z (horas_ano c) * fator_capacidade_anual c
     * disponibilidade (eletrolisador c))
  / pymax (sec_kwh_por_kg (eletrolisador c)) eps12.

(** The annual cost [simular] divides by the production. *)
Definition custo_total_anual_de (c : CenarioEntrada) (r : Resultado) : Q :=
  total_capex_de (res_capex r)
  * capitalRecoveryFactor_spec (wacc_real (financiamento c))
      (vida_projeto_anos (financiamento c))
  + pysum (map valor (res_opex_fixo r))
  + pysum (map valor (itens_variaveis c r))
  + eletrolisador_capex_por_kw (capex c) * potencia_kw (eletrolisador c)
    * fracao_reposicao_stack_capex (eletrolisador c)
    / inject_Z (Z.max (vida_util_anos (eletrolisador c)) 1).

(** The scenario with another energy price. *)
Definition com_preco_mwh (c : CenarioEntrada) (p : Q) : CenarioEntrada :=
  let '(Build_CenarioEntrada m e b en ag ca fi cx fc ha em) := c in
  let '(Build_TarifaEnergia _ d dc) := en in
  Build_CenarioEntrada m e b (Build_TarifaEnergia p d dc) ag ca fi cx fc ha em.

(** The scenario with another capacity factor. *)
Definition com_fator_capacidade (c : CenarioEntrada) (fc : Q) : CenarioEntrada :=
  let '(Build_CenarioEntrada m e b en ag ca fi cx _ ha em) := c in
  Build_CenarioEntrada m e b en ag ca fi cx fc ha em.

(** No quantity, price, rate or percentage read by [simular] is negative. *)
Definition cenario_nao_negativo (c : CenarioEntrada) : Prop :=
  (0 <= sec_kwh_por_kg (eletrolisador c)
   /\ 0 <= disponibilidade (eletrolisador c)
   /\ 0 <= potencia_kw (eletrolisador c)
   /\ 0 <= fracao_reposicao_stack_capex (eletrolisador c))
  /\ (0 <= om_fixo_pct_capex_ano (bop c) /\ 0 <= om_variavel_por_kg (bop c))
  /\ (0 <= preco_mwh (energia c) /\ 0 <= demanda_contratada_kw (energia c))
  /\ (0 <= custo_agua_m3 (agua c) /\ 0 <= litros_por_kg (agua c))
  /\ (0 <= energia_compressao_kwh_por_kg (cae c)
      /\ 0 <= capex_armazenamento_por_kg (cae c)
      /\ 0 <= horas_buffer (cae c)
      /\ 0 <= secagem_purificacao_por_kg (cae c))
  /\ (0 <= wacc_real (financiamento c)
      /\ 0 <= contingencia_capex_pct (financiamento c))
  /\ (0 <= eletrolisador_capex_por_kw (capex c)
      /\ 0 <= fracao_bop (capex c)
      /\ 0 <= instalacao_pct (capex c)
      /\ 0 <= custos_dono_pct (capex c)
      /\ 0 <= interconexao_por_kw (capex c)
      /\ 0 <= capex_tratamento_agua (capex c)
      /\ 0 <= compressor_capex_por_kg_h (capex c))
  /\ (0 <= horas_ano c)%Z.

End TeaCosts.

Module EhoLife.

Import Eho EhoSpec.

(** The scenario with another compression energy. *)
Definition com_compression (s : EHOScenario) (x : Q) : EHOScenario :=
  {| electrolyser :=
       {| power_kw := power_kw (electrolyser s);
          sec_start_kwh_per_kg := sec_start_kwh_per_kg (electrolyser s);
          stack_durability_h := stack_durability_h (electrolyser s);
          degradation_pct_per_1000h := degradation_pct_per_1000h (electrolyser s);
          compression_kwh_per_kg := x |};
     economics := economics s; capex := capex s; subs := subs s; ops := ops s;
     currency := currency s |}.

End EhoLife.

Module SensPaths.

Import Tea Sens SensSweep.

(** The dotted paths of the float fields of a scenario, each with the
    field it names. *)
Definition campos : list (string * (CenarioEntrada -> Q)) :=
  [ ("eletrolisador.sec_kwh_por_kg", fun c => sec_kwh_por_kg (eletrolisador c));
    ("eletrolisador.fracao_minima_carga",
      fun c => fracao_minima_carga (eletrolisador c));
    ("eletrolisador.disponibilidade", fun c => disponibilidade (eletrolisador c));
    ("eletrolisador.potencia_kw", fun c => potencia_kw (eletrolisador c));
    ("eletrolisador.degradacao_pct_ano",
      fun c => degradacao_pct_ano (eletrolisador c));
    ("eletrolisador.fracao_reposicao_stack_capex",
      fun c => fracao_reposicao_stack_capex (eletrolisador c));
    ("bop.fracao_capex_bop", fun c => fracao_capex_bop (bop c));
    ("bop.om_fixo_pct_capex_ano", fun c => om_fixo_pct_capex_ano (bop c));
    ("bop.om_variavel_por_kg", fun c => om_variavel_por_kg (bop c));
    ("energia.preco_mwh", fun c => preco_mwh (energia c));
    ("energia.demanda_kw_mes", fun c => demanda_kw_mes (energia c));
    ("energia.demanda_contratada_kw", fun c => demanda_contratada_kw (energia c));
    ("agua.custo_agua_m3", fun c => custo_agua_m3 (agua c));
    ("agua.litros_por_kg", fun c => litros_por_kg (agua c));
    ("cae.pressao_entrega_bar", fun c => pressao_entrega_bar (cae c));
    ("cae.energia_compressao_kwh_por_kg",
      fun c => energia_compressao_kwh_por_kg (cae c));
    ("cae.capex_armazenamento_por_kg", fun c => capex_armazenamento_por_kg (cae c));
    ("cae.horas_buffer", fun c => horas_buffer (cae c));
    ("cae.secagem_purificacao_por_kg", fun c => secagem_purificacao_por_kg (cae c));
    ("financiamento.wacc_real", fun c => wacc_real (financiamento c));
    ("financiamento.inflacao_pct", fun c => inflacao_pct (financiamento c));
    ("financiamento.fracao_divida", fun c => fracao_divida (financiamento c));
    ("financiamento.contingencia_capex_pct",
      fun c => contingencia_capex_pct (financiamento c));
    ("capex.eletrolisador_capex_por_kw",
      fun c => eletrolisador_capex_por_kw (capex c));
    ("capex.fracao_bop", fun c => fracao_bop (capex c));
    ("capex.instalacao_pct", fun c => instalacao_pct (capex c));
    ("capex.custos_dono_pct", fun c => custos_dono_pct (capex c));
    ("capex.interconexao_por_kw", fun c => interconexao_por_kw (capex c));
    ("capex.capex_tratamento_agua", fun c => capex_tratamento_agua (capex c));
    ("capex.compressor_capex_por_kg_h",
      fun c => compressor_capex_por_kg_h (capex c));
    ("fator_capacidade_anual", fun c => fator_capacidade_anual c);
    ("emissoes_rede_kg_mwh", fun c => emissoes_rede_kg_mwh c) ]%string.

(** The fields that hold no float. *)
Definition outros_campos (c : CenarioEntrada) : list Z * list string :=
  ([ vida_util_anos (eletrolisador c); vida_projeto_anos (financiamento c);
     horas_ano c ],
   [ moeda c; nome (eletrolisador c) ]).

(** The store of [v] at the path of [pp] goes through, puts [v] in the
    field of [pp] and leaves every other field as it is. *)
Definition store_frame (c : CenarioEntrada) (v : Q)
    (pp : string * (CenarioEntrada -> Q)) : Prop :=
  exists c',
    _set_attr_dotted c (fst pp) v = Ok c'
    /\ snd pp c' = v
    /\ Forall (fun qq => fst qq <> fst pp -> snd qq c' = snd qq c) campos
    /\ outros_campos c' = outros_campos c.

(** Point [pt] is the run of the base scenario with [parametro] set to its
    value. *)
Definition ponto_de (cenario_base : CenarioEntrada) (parametro : string) (pt : Ponto)
    : Prop :=
  exists c out,
    _set_attr_dotted cenario_base parametro (pt_valor pt) = Ok c
    /\ simular c = Ok out
    /\ pt_lcoh pt = lcoh out
    /\ pt_h2_anual_kg pt = h2_anual_kg out.

(** Two curves of a spider chart. *)
Definition definicoes_exemplo : list Definicao :=
  [ {| d_nome := "Preco"; d_path := "energia.preco_mwh"; d_valores := [200; 300] |};
    {| d_nome := "SEC"; d_path := "eletrolisador.sec_kwh_por_kg";
       d_valores := [48; 52; 56] |} ]%string.

End SensPaths.

Module SensMCSpec.

Import Tea Sens SensMC.

(** The type of an entry as the loop compares it: the default when the key
    is absent, in lower case. *)
Definition tipo_de (d : Distribuicao) : string :=
  lower (match dist_tipo d with Some t => t | None => "uniforme"%string end).

Definition tipo_suportado (d : Distribuicao) : Prop :=
  tipo_de d = "normal"%string \/ tipo_de d = "uniforme"%string.

(** A stand-in for the generator in the examples: the state counts the
    draws. *)
Definition gerador_exemplo_gauss (g : Z) (mu sd : Q) : Q * Z :=
  (mu + inject_Z (g mod 3 - 1) * sd, (g + 1)%Z).

Definition gerador_exemplo_uniform (g : Z) (a b : Q) : Q * Z :=
  (a + (b - a) * (inject_Z (g mod 4) / 4), (g + 1)%Z).

Definition gerador_exemplo_seed (z : Z) : Z := z.

Definition distribuicoes_exemplo : list Distribuicao :=
  [ {| dist_path := "energia.preco_mwh"; dist_tipo := Some "Normal"%string;
       dist_media := 350; dist_desvio := 50; dist_min := 0; dist_max := 0 |};
    {| dist_path := "eletrolisador.sec_kwh_por_kg"; dist_tipo := None;
       dist_media := 0; dist_desvio := 0; dist_min := 50; dist_max := 58 |} ].

Definition distribuicao_triangular : Distribuicao :=
  {| dist_path := "energia.preco_mwh"; dist_tipo := Some "triangular"%string;
     dist_media := 0; dist_desvio := 0; dist_min := 250; dist_max := 450 |}.

End SensMCSpec.

(* ================================================================== *)
(** * Properties of the runtime conventions                             *)
(* ================================================================== *)

Lemma pydiv_ok (a b : Q) : ~ b == 0 -> pydiv a b = Ok (a / b).
Proof.
  intros Hb. unfold pydiv.
  destruct (Qeq_bool b 0) eqn:E; [ | reflexivity ].
  apply Qeq_bool_iff in E. contradiction.
Qed.

Lemma pydiv_zero (a b : Q) : b == 0 -> pydiv a b = Raise ZeroDivisionError.
Proof.
  intros Hb. unfold pydiv.
  apply Qeq_bool_iff in Hb. now rewrite Hb.
Qed.

Lemma pymax_l (a b : Q) : b <= a -> pymax a b = a.
Proof.
  intros H. unfold pymax. destruct (Qlt_le_dec a b); [ exfalso; lra | reflexivity ].
Qed.

Lemma pymax_r (a b : Q) : a < b -> pymax a b = b.
Proof.
  intros H. unfold pymax. destruct (Qlt_le_dec a b); [ reflexivity | exfalso; lra ].
Qed.

Lemma pymax_ge_l (a b : Q) : a <= pymax a b.
Proof. unfold pymax. destruct (Qlt_le_dec a b); lra. Qed.

Lemma pymax_ge_r (a b : Q) : b <= pymax a b.
Proof. unfold pymax. destruct (Qlt_le_dec a b); lra. Qed.

Lemma eps12_pos : 0 < eps12.
Proof. reflexivity. Qed.

Lemma eps9_pos : 0 < eps9.
Proof. reflexivity. Qed.

Lemma pymax_eps_pos (a : Q) : 0 < pymax a eps12.
Proof. pose proof (pymax_ge_r a eps12). pose proof eps12_pos. lra. Qed.

(** A divisor floored at [1e-12] never raises. *)
Lemma pydiv_floor (a b : Q) : pydiv a (pymax b eps12) = Ok (a / pymax b eps12).
Proof. apply pydiv_ok. pose proof (pymax_eps_pos b). lra. Qed.

Lemma pymin_le_l (a b : Q) : pymin a b <= a.
Proof. unfold pymin. destruct (Qlt_le_dec b a); lra. Qed.

Lemma pymin_le_r (a b : Q) : pymin a b <= b.
Proof. unfold pymin. destruct (Qlt_le_dec b a); lra. Qed.

Lemma pymin_cases (a b : Q) : pymin a b = a \/ pymin a b = b.
Proof. unfold pymin. destruct (Qlt_le_dec b a); auto. Qed.

Lemma pymin_glb (a b c : Q) : c < a -> c < b -> c < pymin a b.
Proof. intros. destruct (pymin_cases a b) as [-> | ->]; assumption. Qed.

Lemma Qle_bool_false (a b : Q) : Qle_bool a b = false <-> b < a.
Proof.
  split; intros H.
  - apply Qnot_le_lt. intros C. apply Qle_bool_iff in C. congruence.
  - destruct (Qle_bool a b) eqn:E; [ | reflexivity ].
    apply Qle_bool_iff in E. exfalso. lra.
Qed.

(* ================================================================== *)
(** * Simplified annual model: theorems                                 *)
(* ================================================================== *)

Module TeaFacts.

Import Tea TeaSpec.

Lemma validar_ok (c : CenarioEntrada) :
  validar c = Ok tt <-> 0 <= fator_capacidade_anual c <= 1.
Proof.
  unfold validar.
  destruct (Qle_bool 0 (fator_capacidade_anual c)) eqn:E1;
    destruct (Qle_bool (fator_capacidade_anual c) 1) eqn:E2; cbn [andb];
    try apply Qle_bool_iff in E1; try apply Qle_bool_iff in E2;
    try apply Qle_bool_false in E1; try apply Qle_bool_false in E2;
    split; intros H; try reflexivity; try discriminate; try lra;
    exfalso; lra.
Qed.

Lemma validar_raises (c : CenarioEntrada) :
  validar c = Raise ValueError <-> ~ (0 <= fator_capacidade_anual c <= 1).
Proof.
  rewrite <- validar_ok. unfold validar.
  destruct (_ && _); split; intros H; try reflexivity; try discriminate;
    try congruence.
Qed.

Lemma fator_recuperacao_capital_regular (r : Q) (n : Z) :
  crf_regular r n ->
  fator_recuperacao_capital r n = Ok (capitalRecoveryFactor_spec r n).
Proof.
  unfold crf_regular, fator_recuperacao_capital, capitalRecoveryFactor_spec.
  intros H.
  destruct (n <=? 0)%Z eqn:En; [ reflexivity | ].
  apply Z.leb_gt in En.
  destruct (Qeq_bool r 0) eqn:Er.
  - apply pydiv_ok. intros C.
    assert (inject_Z 0 < inject_Z n) by (rewrite <- Zlt_Qlt; exact En).
    change (inject_Z 0) with 0 in *. lra.
  - apply pydiv_ok. intros C.
    destruct H as [H | [H | H]].
    + lia.
    + apply Qeq_bool_iff in H. congruence.
    + apply H. lra.
Qed.

Lemma fator_recuperacao_capital_pole (r : Q) (n : Z) :
  ~ crf_regular r n ->
  fator_recuperacao_capital r n = Raise ZeroDivisionError.
Proof.
  unfold crf_regular, fator_recuperacao_capital. intros H.
  destruct (n <=? 0)%Z eqn:En.
  { apply Z.leb_le in En. tauto. }
  destruct (Qeq_bool r 0) eqn:Er.
  { apply Qeq_bool_iff in Er. tauto. }
  apply pydiv_zero.
  destruct (Qeq_dec ((1 + r) ^ n) 1) as [E | E]; [ lra | tauto ].
Qed.

Lemma crf_eq_fator (i : Q) (n : Z) : Eho.crf i n = fator_recuperacao_capital i n.
Proof. reflexivity. Qed.

(** No non-negative rate sits on the pole. *)
Lemma crf_regular_nonneg_rate (r : Q) (n : Z) : 0 <= r -> crf_regular r n.
Proof.
  intros Hr. unfold crf_regular.
  destruct (Z_le_gt_dec n 0) as [Hn | Hn]; [ now left | right ].
  destruct (Qeq_dec r 0) as [E | E]; [ now left | right ].
  assert (H1 : 1 < 1 + r) by lra.
  pose proof (Qpower_1_lt (1 + r) n H1 ltac:(lia)). lra.
Qed.

(** What a returned factor is: the value of the specification, off the
    pole. *)
Lemma fator_recuperacao_capital_ok_inv (r : Q) (n : Z) (k : Q) :
  fator_recuperacao_capital r n = Ok k ->
  k = capitalRecoveryFactor_spec r n /\ crf_regular r n.
Proof.
  intros H.
  destruct (Qeq_dec ((1 + r) ^ n) 1) as [E | E].
  - assert (Hdec : crf_regular r n \/ ~ crf_regular r n).
    { unfold crf_regular.
      destruct (Z_le_gt_dec n 0); [ now left; left | ].
      destruct (Qeq_dec r 0); [ now left; right; left | ].
      right. intros [C | [C | C]]; [ lia | contradiction | contradiction ]. }
    destruct Hdec as [Hr | Hr].
    + rewrite (fator_recuperacao_capital_regular _ _ Hr) in H.
      injection H as <-. now split.
    + rewrite (fator_recuperacao_capital_pole _ _ Hr) in H. discriminate.
  - assert (Hr : crf_regular r n) by (right; right; exact E).
    rewrite (fator_recuperacao_capital_regular _ _ Hr) in H.
    injection H as <-. now split.
Qed.

(** Every CAPEX divisor is floored: [calcular_capex] returns its ten lines. *)
Lemma calcular_capex_total (c : CenarioEntrada) :
  exists itens, calcular_capex c = Ok itens
    /\ next_valor "Total CAPEX" itens = Ok (total_capex_de itens).
Proof.
  unfold calcular_capex, producao_anual_kg, capacidade_armazenamento_kg.
  rewrite !pydiv_floor. cbv beta iota zeta delta [bind].
  rewrite !pydiv_floor. cbv beta iota zeta delta [bind].
  eexists. split; reflexivity.
Qed.

Lemma pydiv_vida (a : Q) (vida : Z) :
  pydiv a (inject_Z (Z.max vida 1)) = Ok (a / inject_Z (Z.max vida 1)).
Proof.
  apply pydiv_ok. intros C.
  assert (inject_Z 0 < inject_Z (Z.max vida 1)) by (rewrite <- Zlt_Qlt; lia).
  change (inject_Z 0) with 0 in *. lra.
Qed.

(** Stepping through [simular] once the scenario is valid. *)
Ltac simular_passos Hcf Hit Htot :=
  unfold simular;
  rewrite Hcf; cbv beta iota delta [bind];
  rewrite Hit; cbv beta iota delta [bind];
  rewrite Htot; cbv beta iota delta [bind];
  unfold producao_anual_kg; rewrite pydiv_floor; cbv beta iota delta [bind];
  unfold calcular_energia_var; cbv beta iota zeta;
  unfold calcular_opex_fixo; rewrite Htot; cbv beta iota zeta delta [bind];
  rewrite pydiv_vida;
  unfold anualizar_capex.

(** With a valid capacity factor, [simular] returns unless the capital
    recovery factor sits on its pole. *)
Lemma simular_returns (c : CenarioEntrada) :
  0 <= fator_capacidade_anual c <= 1 ->
  crf_regular (wacc_real (financiamento c)) (vida_projeto_anos (financiamento c)) ->
  exists r, simular c = Ok r.
Proof.
  intros Hcf Hreg.
  destruct (calcular_capex_total c) as (itens & Hit & Htot).
  apply validar_ok in Hcf.
  simular_passos Hcf Hit Htot.
  rewrite (fator_recuperacao_capital_regular _ _ Hreg).
  cbv beta iota zeta delta [bind].
  rewrite pydiv_floor. eexists. reflexivity.
Qed.

Lemma simular_pole (c : CenarioEntrada) :
  0 <= fator_capacidade_anual c <= 1 ->
  ~ crf_regular (wacc_real (financiamento c)) (vida_projeto_anos (financiamento c)) ->
  simular c = Raise ZeroDivisionError.
Proof.
  intros Hcf Hreg.
  destruct (calcular_capex_total c) as (itens & Hit & Htot).
  apply validar_ok in Hcf.
  simular_passos Hcf Hit Htot.
  rewrite (fator_recuperacao_capital_pole _ _ Hreg).
  reflexivity.
Qed.

(** The bound check comes first and is the only source of [ValueError]. *)
Lemma simular_value_error_iff (c : CenarioEntrada) :
  simular c = Raise ValueError <-> ~ (0 <= fator_capacidade_anual c <= 1).
Proof.
  split.
  - intros H Hcf.
    destruct (calcular_capex_total c) as (itens & Hit & Htot).
    apply validar_ok in Hcf. revert H.
    simular_passos Hcf Hit Htot.
    unfold fator_recuperacao_capital, pydiv.
    repeat match goal with
           | |- context [if ?b then _ else _] => destruct b
           end; cbv beta iota zeta delta [bind];
      try rewrite pydiv_floor; discriminate.
  - intros H. apply validar_raises in H. unfold simular. now rewrite H.
Qed.

(** ** The capital recovery factor *)

(** C3.  The capital recovery factor divides by zero at rate -2 over an
    even number of periods: there [(1+r)^n - 1 = 0] although [r <> 0] and
    [n > 0], and both [fator_recuperacao_capital] and [crf] raise
    [ZeroDivisionError]. *)
Theorem crf_pole_raises :
  fator_recuperacao_capital (-2) 2 = Raise ZeroDivisionError
  /\ Eho.crf (-2) 2 = Raise ZeroDivisionError
  /\ ~ (-2 == 0) /\ (0 < 2)%Z.
Proof.
  repeat split; try reflexivity. intros H. discriminate H.
Qed.

(** ** Errors of the simplified simulation *)

(** C5.  With the default scenario and WACC = -2 the capacity factor is
    0.85, inside [0,1], and [simular] nevertheless raises
    [ZeroDivisionError]: the divisor of the capital recovery factor is not
    floored. *)
Theorem simular_pole_raises :
  0 <= fator_capacidade_anual cenario_wacc_polo <= 1
  /\ simular cenario_wacc_polo = Raise ZeroDivisionError.
Proof.
  assert (H : 0 <= fator_capacidade_anual cenario_wacc_polo <= 1).
  { split; vm_compute; discriminate. }
  split; [ exact H | ].
  apply simular_pole; [ exact H | ].
  unfold crf_regular. intros [C | [C | C]].
  - vm_compute in C. now apply C.
  - discriminate C.
  - apply C. reflexivity.
Qed.

(** ** The LCOH formula *)

(** C1 (amended).  For every simplified scenario with capacity factor in
    [0,1], SEC >= 1e-12, stack life >= 1, annual production >= 1e-12, and
    on whose WACC and project life [fator_recuperacao_capital] returns a
    factor [k], [simular] returns; the annual production it reports is
    power x (hours/year x capacity factor x availability) / SEC, [k] is the
    capital recovery factor of the specification, and the LCOH is
    (Total CAPEX x k + sum of fixed-OPEX lines + sum of variable-OPEX lines
    + straight-line stack reserve) / annual production. *)
Theorem simular_lcoh_formula (c : CenarioEntrada) (k : Q) :
  0 <= fator_capacidade_anual c <= 1 ->
  eps12 <= sec_kwh_por_kg (eletrolisador c) ->
  (1 <= vida_util_anos (eletrolisador c))%Z ->
  eps12 <= producao_anual_spec c ->
  fator_recuperacao_capital (wacc_real (financiamento c))
    (vida_projeto_anos (financiamento c)) = Ok k ->
  exists r, simular c = Ok r
    /\ h2_anual_kg r == producao_anual_spec c
    /\ (exists linha, res_opex_variavel r = itens_variaveis c r ++ [linha]
                      /\ valor linha == reserva_stack_spec c)
    /\ k = capitalRecoveryFactor_spec (wacc_real (financiamento c))
             (vida_projeto_anos (financiamento c))
    /\ lcoh r == lcoh_spec c r.
Proof.
  intros Hcf Hsec Hvida Hprod Hk.
  destruct (fator_recuperacao_capital_ok_inv _ _ _ Hk) as [Ek _].
  destruct (calcular_capex_total c) as (itens & Hit & Htot).
  apply validar_ok in Hcf.
  simular_passos Hcf Hit Htot.
  rewrite Hk.
  cbv beta iota zeta delta [bind].
  rewrite pydiv_floor.
  rewrite (pymax_l _ _ Hsec).
  rewrite Z.max_l by lia.
  eexists. split; [ reflexivity | ].
  cbn [lcoh h2_anual_kg res_opex_variavel]. split; [ reflexivity | ].
  unfold lcoh_spec, itens_variaveis, calcular_energia_var.
  cbn [res_capex res_opex_fixo h2_anual_kg fst snd].
  fold (producao_anual_spec c).
  assert (Hres : eletrolisador_capex_por_kw (capex c) * potencia_kw (eletrolisador c)
                 * fracao_reposicao_stack_capex (eletrolisador c)
                 / inject_Z (vida_util_anos (eletrolisador c))
                 == reserva_stack_spec c).
  { unfold reserva_stack_spec, Qdiv. ring. }
  split; [ | split; [ exact Ek | ] ].
  - eexists. split; [ reflexivity | ]. cbn [valor]. exact Hres.
  - rewrite (pymax_l _ _ Hprod). rewrite <- Ek.
    apply Qdiv_comp; [ | reflexivity ].
    rewrite Hres. reflexivity.
Qed.

Lemma simular_lcoh_formula_witness :
  exists k,
    fator_recuperacao_capital (wacc_real (financiamento cenario_padrao))
      (vida_projeto_anos (financiamento cenario_padrao)) = Ok k
    /\ exists r,
         simular cenario_padrao = Ok r
         /\ h2_anual_kg r == producao_anual_spec cenario_padrao
         /\ (exists linha,
               res_opex_variavel r = itens_variaveis cenario_padrao r ++ [linha]
               /\ valor linha == reserva_stack_spec cenario_padrao)
         /\ k = capitalRecoveryFactor_spec (wacc_real (financiamento cenario_padrao))
                  (vida_projeto_anos (financiamento cenario_padrao))
         /\ lcoh r == lcoh_spec cenario_padrao r.
Proof.
  eexists. split; [ vm_compute; reflexivity | ].
  apply (simular_lcoh_formula cenario_padrao);
    [ split; vm_compute; discriminate | vm_compute; discriminate
    | vm_compute; discriminate | vm_compute; discriminate
    | vm_compute; reflexivity ].
Defined.

(** C1 as stated fails below the epsilon floor: with SEC = 1e-13 kWh/kg
    (strictly positive, every other field at its default) the production
    reported by [simular] is computed with 1e-12 in place of the SEC, and
    the LCOH is not the claimed quotient. *)
Lemma simular_lcoh_tiny_sec_counterexample :
  let c := cenario_sec_minusculo in
  (0 <= fator_capacidade_anual c <= 1
   /\ 0 < sec_kwh_por_kg (eletrolisador c)
   /\ 0 < potencia_kw (eletrolisador c)
   /\ 0 < disponibilidade (eletrolisador c)
   /\ (0 < vida_util_anos (eletrolisador c))%Z
   /\ (0 < vida_projeto_anos (financiamento c))%Z)
  /\ exists r, simular c = Ok r
       /\ ~ h2_anual_kg r == producao_anual_spec c
       /\ ~ lcoh r == lcoh_spec c r.
Proof.
  cbv zeta. split.
  - repeat split; vm_compute; try reflexivity; discriminate.
  - eexists. split; [ vm_compute; reflexivity | ].
    split; intros H; apply Qeq_bool_iff in H; vm_compute in H; discriminate H.
Qed.

(** ** The CAPEX breakdown *)

(** C6 (amended).  For every simplified scenario whose operating hours
    (hours/year x availability) are >= 1e-12, [calcular_capex] returns
    exactly ten lines, named in this order Eletrolisador, Balance of Plant,
    Interconexao, Compressor, Armazenamento Buffer, Tratamento Agua,
    Instalacao/EPC, Custos do Dono, Contingencia, Total CAPEX; direct cost
    is the sum of the first six, installation and owner's cost are each a
    percentage of direct cost, contingency is a percentage of (direct +
    installation + owner's cost), Total CAPEX is their sum, and the storage
    buffer line is ((annual production / operating hours) x buffer hours) x
    unit storage cost. *)
Theorem calcular_capex_breakdown (c : CenarioEntrada) :
  eps12 <= horas_operacao c ->
  exists itens h2_anual,
    calcular_capex c = Ok itens
    /\ producao_anual_kg (eletrolisador c) (fator_capacidade_anual c) (horas_ano c)
       = Ok h2_anual
    /\ map item_nome itens = capex_nomes
    /\ capex_relacoes c h2_anual (map valor itens).
Proof.
  intros Hh.
  unfold calcular_capex, producao_anual_kg, capacidade_armazenamento_kg.
  rewrite !pydiv_floor. cbv beta iota zeta delta [bind].
  rewrite !pydiv_floor. cbv beta iota zeta delta [bind].
  do 2 eexists. split; [ reflexivity | ]. split; [ reflexivity | ].
  split; [ reflexivity | ].
  cbn [map valor capex_relacoes]. cbv zeta.
  repeat split; try reflexivity.
  unfold armazenamento_spec. fold (horas_operacao c).
  rewrite (pymax_l _ _ Hh). reflexivity.
Qed.

Lemma calcular_capex_breakdown_witness :
  exists itens h2_anual,
    calcular_capex cenario_padrao = Ok itens
    /\ producao_anual_kg (eletrolisador cenario_padrao)
         (fator_capacidade_anual cenario_padrao) (horas_ano cenario_padrao)
       = Ok h2_anual
    /\ map item_nome itens = capex_nomes
    /\ capex_relacoes cenario_padrao h2_anual (map valor itens).
Proof.
  apply (calcular_capex_breakdown cenario_padrao).
  vm_compute; discriminate.
Defined.

(** C6 as stated fails below the epsilon floor: with availability 1e-17
    (operating hours 8.76e-14 < 1e-12, production still positive) the
    storage line divides the production by 1e-12, not by the operating
    hours. *)
Lemma calcular_capex_tiny_hours_counterexample :
  let c := cenario_disp_minuscula in
  exists itens h2_anual,
    calcular_capex c = Ok itens
    /\ producao_anual_kg (eletrolisador c) (fator_capacidade_anual c) (horas_ano c)
       = Ok h2_anual
    /\ ~ capex_relacoes c h2_anual (map valor itens).
Proof.
  cbv zeta. do 2 eexists.
  split; [ vm_compute; reflexivity | ].
  split; [ vm_compute; reflexivity | ].
  cbn [map valor capex_relacoes]. cbv zeta.
  intros (_ & _ & _ & _ & H).
  apply Qeq_bool_iff in H. vm_compute in H. discriminate H.
Qed.

(** ** Independence from the degradation rate *)

(** C10.  [simular] does not read [eletrolisador.degradacao_pct_ano]:
    whatever the scenario and whatever two values the field takes, the
    outcomes (result or error) are identical; the driver's path
    "eletrolisador.degradacao_pct_ano" performs exactly that update. *)
Theorem simular_ignores_degradacao (c : CenarioEntrada) (d d' : Q) :
  simular (com_degradacao c d) = simular (com_degradacao c d')
  /\ simular (com_degradacao c d) = simular c
  /\ Sens._set_attr_dotted c "eletrolisador.degradacao_pct_ano" d
     = Ok (com_degradacao c d).
Proof.
  destruct c as [m e b en ag ca fi cx fc ha em].
  destruct e as [n sec fmin disp pot vida degr frac].
  repeat split; reflexivity.
Qed.

End TeaFacts.

(* ================================================================== *)
(** * Lifetime model: theorems                                          *)
(* ================================================================== *)

Module EhoFacts.

Import Eho EhoSpec.

(** ** Stack replacement count *)

Lemma stack_replacements_ok (econ_years : Z) (op_hours_per_year durability_h : Q) :
  stack_replacements econ_years op_hours_per_year durability_h
  = Ok (Qfloor (inject_Z econ_years * op_hours_per_year / pymax durability_h eps12)).
Proof. unfold stack_replacements. now rewrite pydiv_floor. Qed.

Lemma Qdiv_le_num (a b c : Q) : 0 < c -> a <= b -> a / c <= b / c.
Proof.
  intros Hc Hab. apply Qle_shift_div_l; [ exact Hc | ].
  assert (E : a / c * c == a) by (field; lra). rewrite E. exact Hab.
Qed.






(** ** The block loop on a non-positive durability *)

Section NonPositiveDurability.

Variables (sec0 degr total_hours durability_h : Q).
Hypothesis Hdur : durability_h <= 0.
Hypothesis Htotal : eps9 < total_hours.

Let step := block_step sec0 degr total_hours durability_h.
Let loop := while_blocks sec0 degr total_hours durability_h.

Lemma block_is_durability (st : blocks) :
  hours_counted st <= 0 ->
  hours_until_reset st = durability_h ->
  pymin3 1000 (total_hours - hours_counted st) (hours_until_reset st)
  = durability_h.
Proof.
  intros Hc Hr. rewrite Hr. unfold pymin3.
  pose proof eps9_pos.
  assert (H1 : durability_h < pymin 1000 (total_hours - hours_counted st)).
  { apply pymin_glb; lra. }
  unfold pymin at 1.
  destruct (Qlt_le_dec durability_h _); [ reflexivity | exfalso; lra ].
Qed.

(** Each pass moves [hours_counted] by the durability (backwards or not
    at all) and resets the countdown to the durability. *)
Lemma block_step_stuck (st : blocks) :
  hours_counted st <= 0 ->
  hours_until_reset st = durability_h ->
  hours_counted (step st) <= 0 /\ hours_until_reset (step st) = durability_h.
Proof.
  intros Hc Hr. pose proof eps9_pos.
  unfold step, block_step. cbv zeta.
  rewrite (block_is_durability st Hc Hr).
  assert (E1 : Qle_bool (hours_until_reset st - durability_h) eps9 = true).
  { apply Qle_bool_iff. rewrite Hr. lra. }
  assert (E2 : Qle_bool (total_hours - eps9) (hours_counted st + durability_h)
               = false).
  { apply Qle_bool_false. lra. }
  rewrite E1, E2. cbn [andb negb hours_counted hours_until_reset].
  split; [ lra | reflexivity ].
Qed.

Lemma while_blocks_stuck (fuel : nat) (st : blocks) :
  hours_counted st <= 0 ->
  hours_until_reset st = durability_h ->
  loop fuel st = None.
Proof.
  revert st. induction fuel as [ | fuel IH ]; intros st Hc Hr;
    pose proof eps9_pos; unfold loop; cbn [while_blocks];
    assert (E : Qle_bool (total_hours - eps9) (hours_counted st) = false)
      by (apply Qle_bool_false; lra);
    rewrite E.
  - reflexivity.
  - destruct (block_step_stuck st Hc Hr) as [Hc' Hr'].
    exact (IH _ Hc' Hr').
Qed.

End NonPositiveDurability.

(** A stack durability <= 0 over a horizon above 1e-9 h: the loop is
    entered and never ends, whatever the fuel. *)
Lemma average_sec_diverges (sec0 degr : Q) (econ_years : Z) (op_hours durability_h : Q) :
  durability_h <= 0 ->
  eps9 < inject_Z econ_years * op_hours ->
  forall fuel,
    average_sec_kwh_per_kg_over_life fuel sec0 degr econ_years op_hours durability_h
    = None.
Proof.
  intros Hd Ht fuel. unfold average_sec_kwh_per_kg_over_life.
  rewrite stack_replacements_ok. cbn [lift fbind].
  rewrite (while_blocks_stuck sec0 degr _ durability_h Hd Ht fuel);
    [ reflexivity | cbn [hours_counted]; lra | reflexivity ].
Qed.

Lemma simulate_eho_diverges (s : EHOScenario) :
  stack_durability_h (electrolyser s) <= 0 ->
  eps9 < inject_Z (economic_life_years (economics s))
         * (operating_hours_per_year (ops s) * availability (ops s)) ->
  forall fuel, simulate_eho fuel s = None.
Proof.
  intros Hd Ht fuel. unfold simulate_eho. cbv zeta.
  rewrite stack_replacements_ok. cbn [lift fbind].
  now rewrite (average_sec_diverges _ _ _ _ _ Hd Ht).
Qed.

(** The loop test fails at once: the state is returned, whatever the fuel. *)
Lemma while_blocks_exit (sec0 degr total_hours durability_h : Q) (fuel : nat)
    (st : blocks) :
  total_hours - eps9 <= hours_counted st ->
  while_blocks sec0 degr total_hours durability_h fuel st = Some st.
Proof.
  intros H. apply Qle_bool_iff in H.
  destruct fuel; cbn [while_blocks]; now rewrite H.
Qed.

(** A horizon of at most 1e-9 h: no block is run and the average is
    [0 / max(total_hours, 1e-12)]. *)
Lemma average_sec_empty_horizon (fuel : nat) (sec0 degr : Q) (econ_years : Z)
    (op_hours durability_h : Q) :
  inject_Z econ_years * op_hours <= eps9 ->
  average_sec_kwh_per_kg_over_life fuel sec0 degr econ_years op_hours durability_h
  = Some (Ok (0 / pymax (inject_Z econ_years * op_hours) eps12)).
Proof.
  intros H. unfold average_sec_kwh_per_kg_over_life.
  rewrite stack_replacements_ok. cbn [lift fbind].
  rewrite while_blocks_exit by (cbn [hours_counted]; lra).
  cbn [sec_sum]. unfold lift. now rewrite pydiv_floor.
Qed.

(** C2.  Two scenarios on which [simulate_eho] does not return.  With
    [stack_durability_h = 0] (every other field at its default) the block
    loop of [average_sec_kwh_per_kg_over_life] makes no progress: whatever
    the fuel, the simulation is still inside the loop.  With
    [economic_life_years = 0] the simulation raises [ZeroDivisionError] at
    [h2_total_kg / ec.economic_life_years], whose divisor is not floored. *)
Theorem simulate_eho_zero_durability_or_life :
  (forall fuel, simulate_eho fuel scenario_zero_durability = None)
  /\ (forall fuel,
        simulate_eho fuel scenario_zero_life = Some (Raise ZeroDivisionError)).
Proof.
  split.
  - apply simulate_eho_diverges; vm_compute; [ discriminate | reflexivity ].
  - intros fuel. unfold simulate_eho. cbv zeta.
    rewrite stack_replacements_ok. cbn [lift fbind].
    rewrite average_sec_empty_horizon by (vm_compute; discriminate).
    cbn [lift fbind]. vm_compute. reflexivity.
Qed.

(** ** Subsidies and oxygen revenue *)

Lemma Qdiv_nonpos (a b : Q) : a <= 0 -> 0 < b -> a / b <= 0.
Proof. intros Ha Hb. apply Qle_shift_div_r; lra. Qed.

(** Above the floor the floored contributions are the specification's. *)
Lemma floored_contributions_spec (s : EHOScenario) (production energy : Q) :
  eps12 <= production ->
  subsidies_floored s production energy == subsidies_spec s production energy
  /\ oxygen_floored s production == oxygen_spec s production.
Proof.
  intros H. unfold subsidies_floored, oxygen_floored.
  rewrite (pymax_l _ _ H). split; reflexivity.
Qed.

(** C8 (amended).  Whenever [simulate_eho] returns on a scenario whose
    subsidy parameters (grant per kW, premium per kg, reduction per MWh),
    oxygen price and installed power are non-negative, and the lifetime
    production and lifetime energy it reports are non-negative, the
    subsidies and the oxygen contributions are each <= 0, with
    subsidies = -(grant x installed kW + premium x production + reduction x
    energy) / max(production, 1e-12) and
    oxygen = -((8 x production) / 1000 x price per tonne) /
    max(production, 1e-12). *)
Theorem subsidies_oxygen_nonpositive (fuel : nat) (s : EHOScenario) (r : EHOResult) :
  simulate_eho fuel s = Some (Ok r) ->
  0 <= capex_subsidy_eur_per_kw (subs s) ->
  0 <= h2_premium_eur_per_kg (subs s) ->
  0 <= reduction_grid_or_tax_eur_per_mwh (subs s) ->
  0 <= oxygen_sale_price_eur_per_ton (subs s) ->
  0 <= installed_power_kw (capex s) ->
  0 <= lt_h2_total_kg (lifetime_totals r) ->
  0 <= lt_electricity_total_mwh (lifetime_totals r) ->
  bd_subsidies (breakdown_eur_per_kg r) <= 0
  /\ bd_oxygen (breakdown_eur_per_kg r) <= 0
  /\ bd_subsidies (breakdown_eur_per_kg r)
     == subsidies_floored s (lt_h2_total_kg (lifetime_totals r))
          (lt_electricity_total_mwh (lifetime_totals r))
  /\ bd_oxygen (breakdown_eur_per_kg r)
     == oxygen_floored s (lt_h2_total_kg (lifetime_totals r)).
Proof.
  intros Hsim Hg Hp Hr Ho Hk. revert Hsim.
  unfold simulate_eho. cbv zeta.
  rewrite stack_replacements_ok. cbn [lift fbind].
  destruct (average_sec_kwh_per_kg_over_life _ _ _ _ _ _) as [ [avg | e] | ];
    cbn [lift fbind]; try discriminate.
  unfold capacity_kg_per_h. rewrite pydiv_floor. cbv beta iota delta [bind].
  unfold annualised_capex_eur_per_year.
  destruct (crf _ _) as [k | e]; cbv beta iota delta [bind]; try discriminate.
  destruct (pydiv _ (inject_Z _)) as [py | e]; cbv beta iota delta [bind];
    try discriminate.
  unfold electricity_cost_eur_per_kg, other_opex_eur_per_kg, grid_fees_eur_per_kg,
    taxes_eur_per_kg, subsidies_eur_per_kg, oxygen_revenues_eur_per_kg.
  repeat (rewrite pydiv_floor; cbv beta iota delta [bind]).
  intros Hsim. injection Hsim as <-.
  cbn [lifetime_totals breakdown_eur_per_kg lt_h2_total_kg lt_electricity_total_mwh
       bd_subsidies bd_oxygen].
  set (P := hydrogen_output_kg _ _ _).
  set (E := electricity_consumption_mwh _ _).
  intros HP HE.
  unfold subsidies_floored, oxygen_floored, subsidies_total_eur,
    oxygen_revenues_total_eur, oxygen_output_kg.
  pose proof (pymax_eps_pos P) as Hpos.
  split; [ | split; [ | split ] ].
  - apply Qdiv_nonpos; [ nra | exact Hpos ].
  - apply Qdiv_nonpos; [ | exact Hpos ].
    assert (E1 : P * 8 / 1000 * oxygen_sale_price_eur_per_ton (subs s)
                 == (8 # 1000) * (P * oxygen_sale_price_eur_per_ton (subs s)))
      by field.
    rewrite E1. nra.
  - reflexivity.
  - apply Qdiv_comp; [ | reflexivity ]. unfold Qdiv. ring.
Qed.

Lemma subsidies_oxygen_nonpositive_witness :
  exists r,
    simulate_eho 10 scenario_subsidised = Some (Ok r)
    /\ bd_subsidies (breakdown_eur_per_kg r) <= 0
    /\ bd_oxygen (breakdown_eur_per_kg r) <= 0
    /\ bd_subsidies (breakdown_eur_per_kg r)
       == subsidies_floored scenario_subsidised (lt_h2_total_kg (lifetime_totals r))
            (lt_electricity_total_mwh (lifetime_totals r))
    /\ bd_oxygen (breakdown_eur_per_kg r)
       == oxygen_floored scenario_subsidised (lt_h2_total_kg (lifetime_totals r)).
Proof.
  eexists. split; [ vm_compute; reflexivity | ].
  apply (subsidies_oxygen_nonpositive 10 scenario_subsidised);
    [ vm_compute; reflexivity | vm_compute; discriminate .. ].
Defined.

(** C8 as stated fails when a quantity other than the subsidy parameters
    is negative: with a grant of 100 EUR/kW (every subsidy parameter and
    the oxygen price non-negative) and an installed power of -5000 kW the
    subsidies contribution is strictly positive. *)
Lemma subsidies_negative_installed_counterexample :
  let s := scenario_negative_installed in
  (0 <= capex_subsidy_eur_per_kw (subs s)
   /\ 0 <= h2_premium_eur_per_kg (subs s)
   /\ 0 <= reduction_grid_or_tax_eur_per_mwh (subs s)
   /\ 0 <= oxygen_sale_price_eur_per_ton (subs s))
  /\ exists r, simulate_eho 10 s = Some (Ok r)
       /\ 0 < bd_subsidies (breakdown_eur_per_kg r).
Proof.
  cbv zeta. split.
  - repeat split; vm_compute; discriminate.
  - eexists. split; vm_compute; reflexivity.
Qed.

(** ** Termination of the block loop *)

Lemma inject_Z_succ (n : nat) :
  inject_Z (Z.of_nat (S n)) == inject_Z (Z.of_nat n) + 1.
Proof.
  rewrite Nat2Z.inj_succ. unfold Z.succ. rewrite inject_Z_plus. reflexivity.
Qed.

Section BlockLoop.

Variables (sec0 degr total_hours durability_h : Q).

Let step := block_step sec0 degr total_hours durability_h.
Let loop := while_blocks sec0 degr total_hours durability_h.

(** A loop invariant under which every block is at least [delta] long
    bounds the number of passes. *)
Lemma while_blocks_terminates (delta : Q) (P : blocks -> Prop) :
  0 < delta ->
  (forall st, P st -> hours_counted st < total_hours - eps9 ->
     P (step st) /\ hours_counted st + delta <= hours_counted (step st)) ->
  forall (fuel : nat) (st : blocks),
    P st ->
    total_hours - hours_counted st <= inject_Z (Z.of_nat fuel) * delta ->
    exists st', loop fuel st = Some st' /\ P st'
                /\ total_hours - eps9 <= hours_counted st'.
Proof.
  intros Hdelta Hstep. pose proof eps9_pos as He.
  induction fuel as [ | fuel IH ]; intros st HP Hfuel.
  - exists st. change (inject_Z (Z.of_nat 0)) with 0 in Hfuel.
    assert (Hx : total_hours - eps9 <= hours_counted st) by lra.
    split; [ now apply while_blocks_exit | now split ].
  - destruct (Qlt_le_dec (hours_counted st) (total_hours - eps9)) as [Hlt | Hge].
    + destruct (Hstep st HP Hlt) as [HP' Hadv].
      rewrite inject_Z_succ in Hfuel.
      destruct (IH (step st) HP') as (st' & Hrun & HPst' & Hend); [ nra | ].
      exists st'. split; [ | now split ].
      unfold loop. cbn [while_blocks].
      apply Qle_bool_false in Hlt. rewrite Hlt. exact Hrun.
    + exists st. split; [ now apply while_blocks_exit | now split ].
Qed.

End BlockLoop.

(** ** A durability above 1e-9 h: the loop ends *)

Section Progress.

Variables (sec0 degr total_hours durability_h : Q).
Hypothesis Hdur : eps9 < durability_h.

Let step := block_step sec0 degr total_hours durability_h.

Lemma block_bounds (st : blocks) :
  progress_inv total_hours st -> hours_counted st < total_hours - eps9 ->
  let block := pymin3 1000 (total_hours - hours_counted st) (hours_until_reset st) in
  eps9 < block /\ block <= total_hours - hours_counted st
  /\ block <= hours_until_reset st.
Proof.
  intros (_ & Hr) Hlt. specialize (Hr Hlt). cbv zeta. unfold pymin3.
  pose proof eps9_pos. split; [ | split ].
  - apply pymin_glb; [ apply pymin_glb | ]; try lra.
    unfold eps9. reflexivity.
  - eapply Qle_trans; [ apply pymin_le_l | apply pymin_le_r ].
  - apply pymin_le_r.
Qed.

(** Each pass covers more than 1e-9 h. *)
Lemma progress_step (st : blocks) :
  progress_inv total_hours st -> hours_counted st < total_hours - eps9 ->
  progress_inv total_hours (step st)
  /\ hours_counted st + eps9 <= hours_counted (step st).
Proof.
  intros Hinv Hlt. destruct (block_bounds st Hinv Hlt) as (Hb1 & Hb2 & Hb3).
  unfold step, block_step. cbv zeta.
  set (block := pymin3 1000 (total_hours - hours_counted st) (hours_until_reset st))
    in *.
  destruct (Qle_bool (hours_until_reset st - block) eps9) eqn:E1;
    destruct (Qle_bool (total_hours - eps9) (hours_counted st + block)) eqn:E2;
    cbn [andb negb]; unfold progress_inv;
    cbn [hours_counted hours_until_reset];
    try apply Qle_bool_iff in E1; try apply Qle_bool_iff in E2;
    try apply Qle_bool_false in E1; try apply Qle_bool_false in E2;
    (split; [ | lra ]); (split; [ lra | ]); intros; lra.
Qed.

Lemma while_blocks_returns (fuel : nat) (sum0 cur0 : Q) :
  total_hours <= inject_Z (Z.of_nat fuel) * eps9 ->
  exists st,
    while_blocks sec0 degr total_hours durability_h fuel
      {| sec_sum := sum0; hours_counted := 0; hours_until_reset := durability_h;
         current_sec := cur0 |}
    = Some st.
Proof.
  intros Hfuel. pose proof eps9_pos.
  destruct (Qlt_le_dec 0 (total_hours - eps9)) as [Hpos | Hneg].
  - destruct (while_blocks_terminates sec0 degr total_hours durability_h eps9
                (progress_inv total_hours) eps9_pos progress_step fuel
                {| sec_sum := sum0; hours_counted := 0;
                   hours_until_reset := durability_h; current_sec := cur0 |})
      as (st & Hrun & _).
    + unfold progress_inv. cbn [hours_counted hours_until_reset].
      split; [ lra | intros; exact Hdur ].
    + cbn [hours_counted]. lra.
    + now exists st.
  - eexists. apply while_blocks_exit. cbn [hours_counted]. exact Hneg.
Qed.

End Progress.

(** With a stack durability above 1e-9 h and fuel for one pass per
    1e-9 h of horizon, the average is returned. *)
Lemma average_sec_returns (fuel : nat) (sec0 degr : Q) (econ_years : Z)
    (op_hours durability_h : Q) :
  eps9 < durability_h ->
  inject_Z econ_years * op_hours <= inject_Z (Z.of_nat fuel) * eps9 ->
  exists v,
    average_sec_kwh_per_kg_over_life fuel sec0 degr econ_years op_hours durability_h
    = Some (Ok v).
Proof.
  intros Hd Hfuel. unfold average_sec_kwh_per_kg_over_life.
  rewrite stack_replacements_ok. cbn [lift fbind].
  destruct (while_blocks_returns sec0 degr _ durability_h Hd fuel 0 sec0 Hfuel)
    as [st Hrun].
  rewrite Hrun. unfold lift. rewrite pydiv_floor. now eexists.
Qed.

(** With, moreover, an economic life other than 0 years and a discount
    rate off the pole of the capital recovery factor, the simulation
    returns. *)
Lemma simulate_eho_returns (fuel : nat) (s : EHOScenario) :
  eps9 < stack_durability_h (electrolyser s) ->
  economic_life_years (economics s) <> 0%Z ->
  TeaSpec.crf_regular (discount_rate (economics s))
    (economic_life_years (economics s)) ->
  inject_Z (economic_life_years (economics s))
  * (operating_hours_per_year (ops s) * availability (ops s))
  <= inject_Z (Z.of_nat fuel) * eps9 ->
  exists r, simulate_eho fuel s = Some (Ok r).
Proof.
  intros Hd Hlife Hreg Hfuel. unfold simulate_eho. cbv zeta.
  rewrite stack_replacements_ok. cbn [lift fbind].
  destruct (average_sec_returns fuel (sec_start_kwh_per_kg (electrolyser s))
              (degradation_pct_per_1000h (electrolyser s)) _ _ _ Hd Hfuel)
    as [avg Havg].
  rewrite Havg. cbn [lift fbind].
  unfold capacity_kg_per_h. rewrite pydiv_floor. cbv beta iota delta [bind].
  unfold annualised_capex_eur_per_year.
  rewrite TeaFacts.crf_eq_fator,
    (TeaFacts.fator_recuperacao_capital_regular _ _ Hreg).
  cbv beta iota delta [bind].
  rewrite pydiv_ok.
  2:{ intros C. apply Hlife. now apply (inject_Z_injective _ 0%Z). }
  cbv beta iota delta [bind].
  unfold electricity_cost_eur_per_kg, other_opex_eur_per_kg, grid_fees_eur_per_kg,
    taxes_eur_per_kg, subsidies_eur_per_kg, oxygen_revenues_eur_per_kg.
  repeat (rewrite pydiv_floor; cbv beta iota delta [bind]).
  now eexists.
Qed.

(** ** Zero degradation *)

Section ZeroDegradation.

Variables (sec0 total_hours durability_h : Q).
Hypothesis Htotal : eps9 < total_hours.
Hypothesis Hdur : eps9 < durability_h.

Let step := block_step sec0 0 total_hours durability_h.

Lemma flat_inv_init : flat_inv sec0 total_hours (blocks_init sec0 durability_h).
Proof.
  pose proof eps9_pos. unfold flat_inv, progress_inv, blocks_init.
  cbn [current_sec sec_sum hours_counted hours_until_reset].
  split; [ reflexivity | ]. split; [ ring | ]. split; [ lra | ]. intros; lra.
Qed.

Lemma flat_inv_step (st : blocks) :
  flat_inv sec0 total_hours st -> hours_counted st < total_hours - eps9 ->
  flat_inv sec0 total_hours (step st)
  /\ hours_counted st + eps9 <= hours_counted (step st).
Proof.
  intros (Hc & Hs & Hprog) Hlt.
  destruct (progress_step sec0 0 total_hours durability_h Hdur st Hprog Hlt)
    as [Hprog' Hadv].
  split; [ | exact Hadv ].
  split; [ | split; [ | exact Hprog' ] ].
  - unfold step, block_step. cbv zeta.
    destruct (_ && _); cbn [current_sec]; [ reflexivity | ].
    rewrite Hc. field.
  - unfold step, block_step. cbv zeta.
    destruct (_ && _); cbn [sec_sum hours_counted]; rewrite Hs, Hc; field.
Qed.

(** The loop ends within [total_hours / 1e-9] passes; the hours it has
    covered are within 1e-9 h of the horizon and the average returned is
    [sec0] times the share of the horizon covered. *)
Lemma average_sec_flat (fuel : nat) :
  total_hours <= inject_Z (Z.of_nat fuel) * eps9 ->
  exists st,
    while_blocks sec0 0 total_hours durability_h fuel (blocks_init sec0 durability_h)
    = Some st
    /\ sec_sum st / pymax total_hours eps12
       == sec0 * (hours_counted st / total_hours)
    /\ total_hours - eps9 <= hours_counted st <= total_hours.
Proof.
  intros Hfuel.
  destruct (while_blocks_terminates sec0 0 total_hours durability_h eps9
              (flat_inv sec0 total_hours) eps9_pos flat_inv_step fuel
              (blocks_init sec0 durability_h) flat_inv_init)
    as (st & Hrun & (_ & Hs & Hle & _) & Hend).
  { cbn [blocks_init hours_counted]. lra. }
  exists st. split; [ exact Hrun | ]. split; [ | now split ].
  assert (eps12 <= total_hours).
  { assert (eps12 < eps9) by reflexivity. lra. }
  rewrite pymax_l by assumption. rewrite Hs. field.
  pose proof eps9_pos. lra.
Qed.

End ZeroDegradation.



Section ZeroDegradationBlocks.

Variables (sec0 total_hours durability_h : Q).

Let step := block_step sec0 0 total_hours durability_h.



End ZeroDegradationBlocks.






End EhoFacts.

(* ================================================================== *)
(** * Sensitivity driver: theorems                                      *)
(* ================================================================== *)

Module SensFacts.

Import Tea Sens SensSpec.

Section SortDescFacts.

Context {A : Type} (key : A -> Q).

Let desc (a b : A) : Prop := key b <= key a.

Lemma insert_desc_perm (x : A) (l : list A) :
  Permutation (x :: l) (insert_desc key x l).
Proof.
  induction l as [ | y ys IH ]; cbn [insert_desc]; [ reflexivity | ].
  destruct (Qlt_le_dec (key x) (key y)); [ | reflexivity ].
  rewrite perm_swap. now constructor.
Qed.

Lemma sort_desc_perm (l : list A) : Permutation l (sort_desc key l).
Proof.
  induction l as [ | x xs IH ]; cbn [sort_desc fold_right]; [ constructor | ].
  fold (sort_desc key xs).
  rewrite <- insert_desc_perm. now constructor.
Qed.

Lemma insert_desc_sorted (x : A) (l : list A) :
  StronglySorted desc l -> StronglySorted desc (insert_desc key x l).
Proof.
  induction 1 as [ | y ys Hs IH Hy ]; cbn [insert_desc].
  - repeat constructor.
  - destruct (Qlt_le_dec (key x) (key y)) as [Hlt | Hge].
    + constructor; [ exact IH | ].
      eapply Permutation_Forall; [ apply insert_desc_perm | ].
      constructor; [ unfold desc; lra | exact Hy ].
    + constructor; [ now constructor | ].
      constructor; [ exact Hge | ].
      eapply Forall_impl; [ | exact Hy ].
      unfold desc. intros z Hz. lra.
Qed.

Lemma sort_desc_sorted (l : list A) : StronglySorted desc (sort_desc key l).
Proof.
  induction l as [ | x xs IH ]; cbn [sort_desc fold_right]; [ constructor | ].
  now apply insert_desc_sorted.
Qed.

End SortDescFacts.

Lemma tornado_linha_de (base : CenarioEntrada) (ref : Q) (p : Parametro)
    (r : LinhaTornado) :
  tornado_linha base ref p = Ok r -> linha_de base p r.
Proof.
  unfold tornado_linha, _clone_cenario. cbv zeta.
  destruct (_set_attr_dotted base (p_path p) (p_baixo p)) as [c_lo | e] eqn:E1;
    cbn [bind]; [ | discriminate ].
  destruct (simular c_lo) as [out_lo | e] eqn:E2; cbn [bind]; [ | discriminate ].
  destruct (_set_attr_dotted base (p_path p) (p_alto p)) as [c_hi | e] eqn:E3;
    cbn [bind]; [ | discriminate ].
  destruct (simular c_hi) as [out_hi | e] eqn:E4; cbn [bind]; [ | discriminate ].
  intros H. injection H as <-.
  exists c_lo, c_hi, out_lo, out_hi. cbn. repeat split; assumption.
Qed.

Lemma tornado_linhas_de (base : CenarioEntrada) (ref : Q) (ps : list Parametro) :
  forall rows, tornado_linhas base ref ps = Ok rows -> Forall2 (linha_de base) ps rows.
Proof.
  induction ps as [ | p ps IH ]; intros rows; cbn [tornado_linhas].
  - intros H. injection H as <-. constructor.
  - destruct (tornado_linha base ref p) as [r | e] eqn:E1; cbn [bind];
      [ | discriminate ].
    destruct (tornado_linhas base ref ps) as [rs | e]; cbn [bind];
      [ | discriminate ].
    intros H. injection H as <-.
    constructor; [ now apply (tornado_linha_de base ref) | now apply IH ].
Qed.

(** [tornado_lcoh] returns as soon as the base run and the two runs of
    every parameter do. *)
Lemma tornado_lcoh_returns (base : CenarioEntrada) (ps : list Parametro) :
  (exists out, simular base = Ok out) ->
  Forall (parametro_corre base) ps ->
  exists rs, tornado_lcoh base ps = Ok rs.
Proof.
  intros [out Hout] Hps. unfold tornado_lcoh. rewrite Hout. cbn [bind].
  assert (H : exists rows, tornado_linhas base (lcoh out) ps = Ok rows).
  { induction Hps as [ | p ps' Hp _ IH ]; cbn [tornado_linhas]; [ now eexists | ].
    destruct Hp as (c_lo & c_hi & out_lo & out_hi & E1 & E2 & E3 & E4).
    destruct IH as [rows IH].
    unfold tornado_linha, _clone_cenario. cbv zeta.
    rewrite E1. cbn [bind]. rewrite E2. cbn [bind].
    rewrite E3. cbn [bind]. rewrite E4. cbn [bind].
    rewrite IH. cbn [bind]. now eexists. }
  destruct H as [rows ->]. cbn [bind]. now eexists.
Qed.

(** C9.  Whatever the base scenario and the parameter definitions, the list
    returned by [tornado_lcoh] holds the rows of the parameters - one per
    parameter, each with the LCOH of its low and of its high run and
    [impacto_abs = |lcoh_alto - lcoh_baixo|] - rearranged so that the
    absolute deltas descend; and sorting two rows whose absolute deltas are
    5 and 12 puts the row with 12 first, in whichever order they came. *)
Theorem tornado_lcoh_sorted (base : CenarioEntrada) (ps : list Parametro)
    (rs : list LinhaTornado) (r5 r12 : LinhaTornado) :
  tornado_lcoh base ps = Ok rs ->
  impacto_abs r5 == 5 ->
  impacto_abs r12 == 12 ->
  (exists rows, Forall2 (linha_de base) ps rows /\ Permutation rows rs)
  /\ StronglySorted impacto_desc rs
  /\ sort_desc impacto_abs [r5; r12] = [r12; r5]
  /\ sort_desc impacto_abs [r12; r5] = [r12; r5].
Proof.
  intros Hrun H5 H12. unfold tornado_lcoh in Hrun.
  destruct (simular base) as [base_out | e]; cbn [bind] in Hrun; [ | discriminate ].
  destruct (tornado_linhas base (lcoh base_out) ps) as [rows | e] eqn:Erows;
    cbn [bind] in Hrun; [ | discriminate ].
  injection Hrun as <-.
  split; [ | split; [ | split ] ].
  - exists rows. split; [ now apply (tornado_linhas_de base (lcoh base_out)) | ].
    apply sort_desc_perm.
  - apply (sort_desc_sorted impacto_abs).
  - cbn [sort_desc fold_right insert_desc].
    destruct (Qlt_le_dec (impacto_abs r5) (impacto_abs r12)); [ reflexivity | ].
    exfalso. lra.
  - cbn [sort_desc fold_right insert_desc].
    destruct (Qlt_le_dec (impacto_abs r12) (impacto_abs r5)); [ | reflexivity ].
    exfalso. lra.
Qed.

Lemma tornado_lcoh_sorted_witness :
  let r5 := linha_exemplo "a" 20 25 in
  let r12 := linha_exemplo "b" 30 18 in
  exists rs,
    tornado_lcoh cenario_padrao parametros_exemplo = Ok rs
    /\ (exists rows, Forall2 (linha_de cenario_padrao) parametros_exemplo rows
                     /\ Permutation rows rs)
    /\ StronglySorted impacto_desc rs
    /\ sort_desc impacto_abs [r5; r12] = [r12; r5]
    /\ sort_desc impacto_abs [r12; r5] = [r12; r5].
Proof.
  cbv zeta. eexists. split; [ vm_compute; reflexivity | ].
  apply (tornado_lcoh_sorted cenario_padrao parametros_exemplo);
    [ vm_compute; reflexivity | reflexivity | reflexivity ].
Defined.

End SensFacts.

(* ================================================================== *)
(** * Simplified annual model: further properties                   *)
(* ================================================================== *)

Module TeaCostFacts.

Import Tea TeaSpec TeaCosts TeaFacts.

(** What a returned result holds. *)
Lemma simular_inv (c : CenarioEntrada) (r : Resultado) :
  simular c = Ok r ->
  0 <= fator_capacidade_anual c <= 1
  /\ crf_regular (wacc_real (financiamento c)) (vida_projeto_anos (financiamento c))
  /\ calcular_capex c = Ok (res_capex r)
  /\ calcular_opex_fixo c (res_capex r) = Ok (res_opex_fixo r)
  /\ h2_anual_kg r = h2_anual_de c
  /\ mwh_anual r
     = (sec_kwh_por_kg (eletrolisador c) + energia_compressao_kwh_por_kg (cae c))
       * h2_anual_de c / 1000
  /\ emissoes_kgco2_por_kg r
     = (sec_kwh_por_kg (eletrolisador c) + energia_compressao_kwh_por_kg (cae c))
       / 1000 * emissoes_rede_kg_mwh c
  /\ lcoh r = custo_total_anual_de c r / pymax (h2_anual_de c) eps12.
Proof.
  intros H.
  assert (Hcf : 0 <= fator_capacidade_anual c <= 1).
  { destruct (validar c) as [ [] | e ] eqn:Ev.
    - now apply validar_ok.
    - unfold simular in H. rewrite Ev in H. discriminate. }
  split; [ exact Hcf | ].
  destruct (calcular_capex_total c) as (itens & Hit & Htot).
  apply validar_ok in Hcf. revert H.
  simular_passos Hcf Hit Htot.
  destruct (fator_recuperacao_capital _ _) as [k | e] eqn:Ek;
    cbv beta iota zeta delta [bind]; [ | discriminate ].
  rewrite pydiv_floor.
  apply fator_recuperacao_capital_ok_inv in Ek. destruct Ek as [-> Hreg].
  intros H. injection H as <-.
  cbn [res_capex res_opex_fixo h2_anual_kg mwh_anual emissoes_kgco2_por_kg lcoh].
  split; [ exact Hreg | ]. repeat split.
  rewrite Htot. reflexivity.
Qed.

(** X2. [consumo_especifico_ano] returns the initial SEC for year 1 and
    for every year below it, and for every year when the degradation is
    zero; with an initial SEC and a degradation that are not negative it
    never returns less than the initial SEC. *)
Theorem consumo_especifico_ano_never_below_sec (e : EspecificacaoEletrolisador)
    (ano : Z) :
  ((ano <= 1)%Z -> consumo_especifico_ano e ano == sec_kwh_por_kg e)
  /\ (degradacao_pct_ano e == 0 -> consumo_especifico_ano e ano == sec_kwh_por_kg e)
  /\ (0 <= sec_kwh_por_kg e -> 0 <= degradacao_pct_ano e ->
      sec_kwh_por_kg e <= consumo_especifico_ano e ano).
Proof.
  unfold consumo_especifico_ano. cbv zeta. split; [ | split ].
  - intros Ha. rewrite Z.max_l by lia. change (?x ^ 0) with 1. ring.
  - intros Hd. rewrite Hd.
    assert (E : 1 + 0 / 100 == 1) by reflexivity. rewrite E.
    rewrite Qpower_1. ring.
  - intros Hs Hd.
    assert (Hb : 1 <= 1 + degradacao_pct_ano e / 100).
    { assert (0 <= degradacao_pct_ano e / 100) by (apply Qle_shift_div_l; lra).
      lra. }
    pose proof (Qpower_1_le _ (Z.max 0 (ano - 1)) Hb ltac:(lia)) as Hp.
    set (p := (1 + degradacao_pct_ano e / 100) ^ Z.max 0 (ano - 1)) in *.
    clearbody p. nra.
Qed.

Lemma consumo_especifico_ano_never_below_sec_witness :
  consumo_especifico_ano (eletrolisador cenario_padrao) 1
  == sec_kwh_por_kg (eletrolisador cenario_padrao)
  /\ consumo_especifico_ano
       (eletrolisador (com_degradacao cenario_padrao 0)) 18
     == sec_kwh_por_kg (eletrolisador (com_degradacao cenario_padrao 0))
  /\ sec_kwh_por_kg (eletrolisador cenario_padrao)
     <= consumo_especifico_ano (eletrolisador cenario_padrao) 18.
Proof.
  split; [ | split ].
  - apply (proj1 (consumo_especifico_ano_never_below_sec
                    (eletrolisador cenario_padrao) 1)).
    lia.
  - apply (proj1 (proj2 (consumo_especifico_ano_never_below_sec
                           (eletrolisador (com_degradacao cenario_padrao 0)) 18))).
    reflexivity.
  - apply (proj2 (proj2 (consumo_especifico_ano_never_below_sec
                           (eletrolisador cenario_padrao) 18)));
      vm_compute; discriminate.
Defined.

Lemma com_preco_mwh_frame (c : CenarioEntrada) (p : Q) :
  calcular_capex (com_preco_mwh c p) = calcular_capex c
  /\ (forall itens, calcular_opex_fixo (com_preco_mwh c p) itens
                    = calcular_opex_fixo c itens)
  /\ h2_anual_de (com_preco_mwh c p) = h2_anual_de c
  /\ (forall r, custo_total_anual_de (com_preco_mwh c p) r
                == custo_total_anual_de c r
                   + (p - preco_mwh (energia c))
                     * ((sec_kwh_por_kg (eletrolisador c)
                         + energia_compressao_kwh_por_kg (cae c))
                        * h2_anual_kg r / 1000)).
Proof.
  destruct c as [m e b en ag ca fi cx fc ha em]. destruct en as [preco dem contr].
  split; [ reflexivity | ]. split; [ intros; reflexivity | ].
  split; [ reflexivity | ]. intros r.
  unfold custo_total_anual_de, itens_variaveis, calcular_energia_var.
  cbn [com_preco_mwh eletrolisador cae energia agua bop capex financiamento moeda
       fst snd map valor preco_mwh].
  unfold pysum at 2 4. cbn [fold_left].
  set (S := _ / inject_Z _). field.
Qed.

(** X4. Of two runs of [simular] that differ in the energy price only, on
    a scenario whose annual energy is not negative, the one with the higher
    price has the same production, energy, CAPEX lines and fixed-OPEX lines
    and an LCOH that is not lower. *)
Theorem lcoh_monotone_in_energy_price (c : CenarioEntrada) (p1 p2 : Q)
    (r1 r2 : Resultado) :
  simular (com_preco_mwh c p1) = Ok r1 ->
  simular (com_preco_mwh c p2) = Ok r2 ->
  p1 <= p2 ->
  0 <= mwh_anual r1 ->
  h2_anual_kg r2 = h2_anual_kg r1
  /\ mwh_anual r2 = mwh_anual r1
  /\ res_capex r2 = res_capex r1
  /\ res_opex_fixo r2 = res_opex_fixo r1
  /\ lcoh r1 <= lcoh r2.
Proof.
  intros H1 H2 Hp Hm.
  apply simular_inv in H1. apply simular_inv in H2.
  destruct H1 as (_ & _ & Hc1 & Hf1 & Hh1 & Hm1 & _ & Hl1).
  destruct H2 as (_ & _ & Hc2 & Hf2 & Hh2 & Hm2 & _ & Hl2).
  destruct (com_preco_mwh_frame c p1) as (Ec1 & Ef1 & Eh1 & Ek1).
  destruct (com_preco_mwh_frame c p2) as (Ec2 & Ef2 & Eh2 & Ek2).
  rewrite Ec1 in Hc1. rewrite Ec2, Hc1 in Hc2. injection Hc2 as Ecapex.
  rewrite Ef1 in Hf1. rewrite Ef2, <- Ecapex, Hf1 in Hf2. injection Hf2 as Efix.
  rewrite Eh1 in Hh1. rewrite Eh2 in Hh2.
  assert (Emwh : mwh_anual r2 = mwh_anual r1).
  { rewrite Hm1, Hm2, Eh1, Eh2. destruct c as [m e b en ag ca fi cx fc ha em].
    destruct en. reflexivity. }
  split; [ congruence | ]. split; [ exact Emwh | ].
  split; [ congruence | ]. split; [ congruence | ].
  rewrite Hl1, Hl2, Eh1, Eh2, Ek1, Ek2.
  assert (Ecost : custo_total_anual_de c r2 = custo_total_anual_de c r1).
  { unfold custo_total_anual_de, itens_variaveis.
    rewrite <- Ecapex, <- Efix, Hh1, Hh2. reflexivity. }
  rewrite Ecost, Hh1, Hh2.
  assert (Hmw : mwh_anual r1
                == (sec_kwh_por_kg (eletrolisador c)
                    + energia_compressao_kwh_por_kg (cae c))
                   * h2_anual_de c / 1000).
  { rewrite Hm1, Eh1. destruct c as [m e b en ag ca fi cx fc ha em].
    destruct en. reflexivity. }
  rewrite Hmw in Hm.
  pose proof (pymax_eps_pos (h2_anual_de c)) as Hpos.
  apply EhoFacts.Qdiv_le_num; [ exact Hpos | ].
  set (M := (sec_kwh_por_kg (eletrolisador c) + energia_compressao_kwh_por_kg (cae c))
            * h2_anual_de c / 1000) in *.
  nra.
Qed.

Lemma lcoh_monotone_in_energy_price_witness :
  exists r1 r2,
    simular (com_preco_mwh cenario_padrao 250) = Ok r1
    /\ simular (com_preco_mwh cenario_padrao 450) = Ok r2
    /\ h2_anual_kg r2 = h2_anual_kg r1
    /\ mwh_anual r2 = mwh_anual r1
    /\ res_capex r2 = res_capex r1
    /\ res_opex_fixo r2 = res_opex_fixo r1
    /\ lcoh r1 <= lcoh r2.
Proof.
  do 2 eexists. split; [ vm_compute; reflexivity | ].
  split; [ vm_compute; reflexivity | ].
  apply (lcoh_monotone_in_energy_price cenario_padrao 250 450);
    [ vm_compute; reflexivity | vm_compute; reflexivity
    | vm_compute; discriminate | vm_compute; discriminate ].
Defined.

Lemma Qplus_nonneg (a b : Q) : 0 <= a -> 0 <= b -> 0 <= a + b.
Proof. intros; lra. Qed.

Lemma Qdiv_nonneg (a b : Q) : 0 <= a -> 0 < b -> 0 <= a / b.
Proof. intros Ha Hb. apply Qle_shift_div_l; lra. Qed.

Lemma inject_Z_nonneg (z : Z) : (0 <= z)%Z -> 0 <= inject_Z z.
Proof. intros H. change 0 with (inject_Z 0). now rewrite <- Zle_Qle. Qed.

Lemma inject_Z_max_pos (z : Z) : 0 < inject_Z (Z.max z 1).
Proof. change 0 with (inject_Z 0). rewrite <- Zlt_Qlt. lia. Qed.

Ltac nonneg :=
  repeat match goal with
         | |- 0 <= _ + _ => apply Qplus_nonneg
         | |- 0 <= _ * _ => apply Qmult_le_0_compat
         | |- 0 <= _ / _ => apply Qdiv_nonneg
         | |- 0 < pymax _ eps12 => apply pymax_eps_pos
         | |- 0 < inject_Z (Z.max _ 1) => apply inject_Z_max_pos
         | |- 0 <= inject_Z _ => apply inject_Z_nonneg
         | |- 0 <= (if ?b then _ else _) => destruct b
         end;
  try assumption; try lra.

Lemma capitalRecoveryFactor_spec_nonneg (r : Q) (n : Z) :
  0 <= r -> 0 <= capitalRecoveryFactor_spec r n.
Proof.
  intros Hr. unfold capitalRecoveryFactor_spec.
  destruct (n <=? 0)%Z eqn:En; [ lra | ]. apply Z.leb_gt in En.
  destruct (Qeq_bool r 0) eqn:Er.
  - apply Qdiv_nonneg; [ lra | ]. change 0 with (inject_Z 0).
    now rewrite <- Zlt_Qlt.
  - assert (Hr0 : ~ r == 0).
    { intros C. apply Qeq_bool_iff in C. congruence. }
    assert (H1 : 1 < 1 + r) by lra.
    pose proof (Qpower_1_lt (1 + r) n H1 ltac:(lia)) as Hq.
    apply Qdiv_nonneg; [ nra | lra ].
Qed.

(** X5. When no quantity, price, rate or percentage of the scenario is
    negative, a result of [simular] has an LCOH and a production that are
    not negative, and no CAPEX line is negative. *)
Theorem simular_lcoh_nonneg (c : CenarioEntrada) (r : Resultado) :
  simular c = Ok r ->
  cenario_nao_negativo c ->
  0 <= lcoh r /\ 0 <= h2_anual_kg r /\ Forall (fun i => 0 <= valor i) (res_capex r).
Proof.
  intros Hsim Hnn. apply simular_inv in Hsim.
  destruct Hsim as ([Hcf0 Hcf1] & _ & Hc & Hf & Hh & _ & _ & Hl).
  destruct Hnn as ((Hsec & Hdisp & Hpot & Hfrac) & (Homf & Homv) & (Hpreco & Hcontr)
                   & (Hagua & Hlit) & (Hcomp & Harm & Hbuf & Hsecagem)
                   & (Hwacc & Hcont) & (Hckw & Hfbop & Hinst & Hdono & Hinter
                                         & Htrat & Hcompr) & Hhoras).
  assert (Hh2 : 0 <= h2_anual_de c) by (unfold h2_anual_de; nonneg).
  assert (Hcapex : Forall (fun i => 0 <= valor i) (res_capex r)).
  { revert Hc. unfold calcular_capex, producao_anual_kg, capacidade_armazenamento_kg.
    rewrite !pydiv_floor. cbv beta iota zeta delta [bind].
    rewrite !pydiv_floor. cbv beta iota zeta delta [bind].
    intros Hc. injection Hc as <-.
    repeat constructor; cbn [valor]; nonneg. }
  assert (Htot : 0 <= total_capex_de (res_capex r)).
  { unfold total_capex_de.
    destruct (find _ (res_capex r)) as [i | ] eqn:E; [ | lra ].
    apply find_some in E. destruct E as [E _].
    rewrite Forall_forall in Hcapex. now apply Hcapex. }
  split; [ | split; [ now rewrite Hh | exact Hcapex ] ].
  rewrite Hl. apply Qdiv_nonneg; [ | apply pymax_eps_pos ].
  unfold custo_total_anual_de.
  assert (Hfix : 0 <= pysum (map valor (res_opex_fixo r))).
  { revert Hf. unfold calcular_opex_fixo, next_valor. fold (total_capex_de (res_capex r)).
    destruct (find _ (res_capex r)) eqn:E; cbv beta iota zeta delta [bind];
      [ | discriminate ].
    intros Hf. injection Hf as <-. unfold pysum. cbn [map valor fold_left].
    unfold total_capex_de in Htot. rewrite E in Htot. nonneg. }
  assert (Hvar : 0 <= pysum (map valor (itens_variaveis c r))).
  { unfold itens_variaveis, calcular_energia_var, pysum.
    cbn [fst snd map valor fold_left]. rewrite Hh. nonneg. }
  pose proof (capitalRecoveryFactor_spec_nonneg _ (vida_projeto_anos (financiamento c))
                Hwacc).
  nonneg.
Qed.

Lemma simular_lcoh_nonneg_witness :
  exists r, simular cenario_padrao = Ok r
    /\ 0 <= lcoh r /\ 0 <= h2_anual_kg r
    /\ Forall (fun i => 0 <= valor i) (res_capex r).
Proof.
  eexists. split; [ vm_compute; reflexivity | ].
  apply (simular_lcoh_nonneg cenario_padrao);
    [ vm_compute; reflexivity | ].
  unfold cenario_nao_negativo. repeat split; vm_compute; discriminate.
Defined.

(** X6. With a capacity factor of zero, and a WACC and project life on
    which [fator_recuperacao_capital] returns, [simular] returns:
    production and energy are zero, and the LCOH is the whole annual cost
    divided by the floor 1e-12. *)
Theorem simular_zero_capacity_factor (c : CenarioEntrada) (k : Q) :
  fator_capacidade_anual c == 0 ->
  fator_recuperacao_capital (wacc_real (financiamento c))
    (vida_projeto_anos (financiamento c)) = Ok k ->
  exists r, simular c = Ok r
    /\ h2_anual_kg r == 0
    /\ mwh_anual r == 0
    /\ lcoh r == custo_total_anual_de c r / eps12.
Proof.
  intros Hcf Hk.
  destruct (fator_recuperacao_capital_ok_inv _ _ _ Hk) as [_ Hreg].
  destruct (simular_returns c) as [r Hr]; [ lra | exact Hreg | ].
  exists r. split; [ exact Hr | ].
  apply simular_inv in Hr.
  destruct Hr as (_ & _ & _ & _ & Hh & Hm & _ & Hl).
  assert (H0 : h2_anual_de c == 0).
  { unfold h2_anual_de. rewrite Hcf. field.
    pose proof (pymax_eps_pos (sec_kwh_por_kg (eletrolisador c))). lra. }
  split; [ now rewrite Hh | ]. split.
  - rewrite Hm, H0. field.
  - rewrite Hl.
    assert (Hp : pymax (h2_anual_de c) eps12 = eps12).
    { apply pymax_r. rewrite H0. reflexivity. }
    rewrite Hp. reflexivity.
Qed.

Lemma simular_zero_capacity_factor_witness :
  exists k,
    fator_recuperacao_capital
      (wacc_real (financiamento (com_fator_capacidade cenario_padrao 0)))
      (vida_projeto_anos (financiamento (com_fator_capacidade cenario_padrao 0)))
    = Ok k
    /\ exists r,
         simular (com_fator_capacidade cenario_padrao 0) = Ok r
         /\ h2_anual_kg r == 0
         /\ mwh_anual r == 0
         /\ lcoh r
            == custo_total_anual_de (com_fator_capacidade cenario_padrao 0) r
               / eps12.
Proof.
  eexists. split; [ vm_compute; reflexivity | ].
  eapply (simular_zero_capacity_factor (com_fator_capacidade cenario_padrao 0));
    [ reflexivity | vm_compute; reflexivity ].
Defined.

End TeaCostFacts.

(* ================================================================== *)
(** * Lifetime model: further properties                            *)
(* ================================================================== *)

Module EhoLifeFacts.

Import Eho EhoSpec EhoLife EhoFacts.

Ltac simulate_eho_open Hsim avg k :=
  revert Hsim;
  unfold simulate_eho; cbv zeta;
  rewrite stack_replacements_ok; cbn [lift fbind];
  destruct (average_sec_kwh_per_kg_over_life _ _ _ _ _ _) as [ [avg | ?] | ];
    cbn [lift fbind]; try discriminate;
  unfold capacity_kg_per_h; rewrite pydiv_floor; cbv beta iota delta [bind];
  unfold annualised_capex_eur_per_year;
  destruct (crf _ _) as [k | ?]; cbv beta iota delta [bind]; try discriminate;
  destruct (pydiv _ (inject_Z _)) as [? | ?]; cbv beta iota delta [bind];
    try discriminate;
  unfold electricity_cost_eur_per_kg, other_opex_eur_per_kg, grid_fees_eur_per_kg,
    taxes_eur_per_kg, subsidies_eur_per_kg, oxygen_revenues_eur_per_kg;
  repeat (rewrite pydiv_floor; cbv beta iota delta [bind]);
  intros Hsim; injection Hsim as <-;
  cbn [lifetime_totals breakdown_eur_per_kg lcoh_total lt_h2_total_kg
       lt_electricity_total_mwh lt_average_sec lt_stack_replacements
       lt_electrolyser_capex_eur lt_grid_fees_eur lt_taxes_eur
       lt_subsidies_total_eur lt_oxygen_revenues_total_eur
       bd_capex bd_electricity bd_other_opex bd_grid_fees bd_taxes
       bd_subsidies bd_oxygen].



(** X11. The total LCOH of [simulate_eho] is the sum of the seven entries
    of its breakdown, in their order; when the CAPEX subsidy, the hydrogen
    premium, the tariff reduction and the oxygen price are zero, the
    subsidy and oxygen entries are zero and the total is the sum of the
    five cost entries. *)
Theorem lcoh_total_is_breakdown_sum (fuel : nat) (s : EHOScenario) (r : EHOResult) :
  simulate_eho fuel s = Some (Ok r) ->
  let b := breakdown_eur_per_kg r in
  lcoh_total r
  = bd_capex b + bd_electricity b + bd_other_opex b + bd_grid_fees b + bd_taxes b
    + bd_subsidies b + bd_oxygen b
  /\ (capex_subsidy_eur_per_kw (subs s) == 0 ->
      h2_premium_eur_per_kg (subs s) == 0 ->
      reduction_grid_or_tax_eur_per_mwh (subs s) == 0 ->
      oxygen_sale_price_eur_per_ton (subs s) == 0 ->
      bd_subsidies b == 0 /\ bd_oxygen b == 0
      /\ lcoh_total r
         == bd_capex b + bd_electricity b + bd_other_opex b + bd_grid_fees b
            + bd_taxes b).
Proof.
  intros Hsim. simulate_eho_open Hsim avg k.
  set (P := hydrogen_output_kg _ _ _).
  set (E := electricity_consumption_mwh _ _).
  cbv zeta. split; [ reflexivity | ].
  intros Hg Hp Hr Ho.
  pose proof (pymax_eps_pos P) as Hpos.
  assert (Hs : - subsidies_total_eur (installed_power_kw (capex s))
                   (capex_subsidy_eur_per_kw (subs s)) P
                   (h2_premium_eur_per_kg (subs s)) E
                   (reduction_grid_or_tax_eur_per_mwh (subs s))
               / pymax P eps12 == 0).
  { unfold subsidies_total_eur. rewrite Hg, Hp, Hr. field. lra. }
  assert (Hox : - oxygen_revenues_total_eur (oxygen_output_kg P)
                    (oxygen_sale_price_eur_per_ton (subs s))
                / pymax P eps12 == 0).
  { unfold oxygen_revenues_total_eur. rewrite Ho. field. lra. }
  split; [ exact Hs | ]. split; [ exact Hox | ].
  rewrite Hs, Hox. ring.
Qed.

Lemma lcoh_total_is_breakdown_sum_witness :
  exists r,
    simulate_eho 10 (com_economic_life scenario_default 1) = Some (Ok r)
    /\ lcoh_total r
       = bd_capex (breakdown_eur_per_kg r) + bd_electricity (breakdown_eur_per_kg r)
         + bd_other_opex (breakdown_eur_per_kg r)
         + bd_grid_fees (breakdown_eur_per_kg r) + bd_taxes (breakdown_eur_per_kg r)
         + bd_subsidies (breakdown_eur_per_kg r) + bd_oxygen (breakdown_eur_per_kg r)
    /\ bd_subsidies (breakdown_eur_per_kg r) == 0
    /\ bd_oxygen (breakdown_eur_per_kg r) == 0
    /\ lcoh_total r
       == bd_capex (breakdown_eur_per_kg r)
          + bd_electricity (breakdown_eur_per_kg r)
          + bd_other_opex (breakdown_eur_per_kg r)
          + bd_grid_fees (breakdown_eur_per_kg r)
          + bd_taxes (breakdown_eur_per_kg r).
Proof.
  eexists. split; [ vm_compute; reflexivity | ].
  destruct (lcoh_total_is_breakdown_sum 10 (com_economic_life scenario_default 1) _
              ltac:(vm_compute; reflexivity)) as [H7 H5].
  split; [ exact H7 | ].
  apply H5; reflexivity.
Defined.

(** X12. A negative compression energy is read as zero: [simulate_eho] gives
    the same outcome as with a compression energy of [0]. *)
Theorem negative_compression_is_ignored (fuel : nat) (s : EHOScenario) (x : Q) :
  x < 0 ->
  simulate_eho fuel (com_compression s x) = simulate_eho fuel (com_compression s 0).
Proof.
  intros Hx. unfold simulate_eho. cbv zeta.
  cbn [com_compression electrolyser economics capex subs ops currency power_kw
       sec_start_kwh_per_kg stack_durability_h degradation_pct_per_1000h
       compression_kwh_per_kg].
  unfold add_compression_to_sec. rewrite (pymax_r x 0 Hx).
  reflexivity.
Qed.

Lemma negative_compression_is_ignored_witness :
  simulate_eho 10 (com_compression (com_economic_life scenario_default 1) (-3))
  = simulate_eho 10 (com_compression (com_economic_life scenario_default 1) 0).
Proof.
  apply (negative_compression_is_ignored 10 _ (-3)). reflexivity.
Defined.

(** X9. When the horizon fits in one block (above 1e-9 h, at most
    1000 h and at most the durability) the loop of
    [average_sec_kwh_per_kg_over_life] makes one pass, and the value
    returned is the trapezoid of that block over the horizon:
    ((sec0 + sec_end) / 2 x hours) / hours with
    sec_end = sec0 x (1 + rate x hours), [rate] the degradation per hour. *)
Theorem average_sec_single_block (fuel : nat) (sec0 degr : Q) (econ_years : Z)
    (op_hours durability_h : Q) :
  eps9 < inject_Z econ_years * op_hours ->
  inject_Z econ_years * op_hours <= 1000 ->
  inject_Z econ_years * op_hours <= durability_h ->
  (1 <= fuel)%nat ->
  exists v,
    average_sec_kwh_per_kg_over_life fuel sec0 degr econ_years op_hours durability_h
    = Some (Ok v)
    /\ let total := inject_Z econ_years * op_hours in
       v == (sec0 + sec0 * (1 + degr / 100 / 1000 * total)) / 2 * total / total.
Proof.
  intros Ht H1000 Hd Hfuel. cbv zeta.
  set (total := inject_Z econ_years * op_hours) in *.
  destruct fuel as [ | fuel ]; [ lia | ].
  pose proof eps9_pos as He9. assert (He12 : eps12 < eps9) by reflexivity.
  unfold average_sec_kwh_per_kg_over_life.
  rewrite stack_replacements_ok. cbn [lift fbind]. fold total.
  cbn [while_blocks hours_counted].
  assert (E0 : Qle_bool (total - eps9) 0 = false) by (apply Qle_bool_false; lra).
  rewrite E0.
  set (st1 := block_step sec0 degr total durability_h _).
  set (b := pymin3 1000 (total - 0) durability_h).
  assert (Hb : b == total).
  { unfold b, pymin3.
    pose proof (pymin_le_l (pymin 1000 (total - 0)) durability_h).
    pose proof (pymin_le_r 1000 (total - 0)).
    destruct (pymin_cases (pymin 1000 (total - 0)) durability_h) as [E | E];
      rewrite E in *;
      [ destruct (pymin_cases 1000 (total - 0)) as [E1 | E1]; rewrite E1 in * | ];
      lra. }
  assert (Hst : hours_counted st1 == total
                /\ sec_sum st1
                   == (sec0 + sec0 * (1 + degr / 100 / 1000 * total)) / 2 * total).
  { unfold st1, block_step. cbv zeta.
    cbn [hours_counted hours_until_reset current_sec sec_sum]. fold b.
    destruct (_ && _); cbn [hours_counted sec_sum]; rewrite Hb; split; field. }
  destruct Hst as [Hhc Hsum].
  rewrite while_blocks_exit by (rewrite Hhc; lra).
  unfold lift. rewrite pydiv_floor. eexists. split; [ reflexivity | ].
  rewrite pymax_l by lra. rewrite Hsum. reflexivity.
Qed.

Lemma average_sec_single_block_witness :
  exists v,
    average_sec_kwh_per_kg_over_life 1 (524 # 10) (12 # 100) 1 1000 80000
    = Some (Ok v)
    /\ v == ((524 # 10)
             + (524 # 10) * (1 + (12 # 100) / 100 / 1000 * (inject_Z 1 * 1000)))
            / 2 * (inject_Z 1 * 1000) / (inject_Z 1 * 1000).
Proof.
  apply (average_sec_single_block 1 (524 # 10) (12 # 100) 1 1000 80000);
    [ vm_compute; reflexivity | vm_compute; discriminate
    | vm_compute; discriminate | lia ].
Defined.

End EhoLifeFacts.

(* ================================================================== *)
(** * Sensitivity driver: stores, sweeps, grid, spider and tornado  *)
(* ================================================================== *)

Module SensSweepFacts.

Import Tea Sens SensSpec SensSweep SensPaths TeaCosts TeaFacts SensFacts.

Lemma set_attr_dotted_frame_all (c : CenarioEntrada) (v : Q) :
  Forall (store_frame c v) campos.
Proof.
  destruct c as [m e b en ag ca fi cx fc ha em].
  destruct e, b, en, ag, ca, fi, cx.
  unfold campos at 1.
  repeat (apply Forall_cons; [
    eexists; split; [ reflexivity | ]; split; [ reflexivity | ];
    split; [ | reflexivity ];
    unfold campos;
    repeat (apply Forall_cons;
            [ cbn [fst snd]; intros H;
              first [ reflexivity | exfalso; apply H; reflexivity ] | ]);
    apply Forall_nil | ]).
  apply Forall_nil.
Qed.

(** X13. [_set_attr_dotted] on the path of a float field of the scenario goes
    through, the field then holds the value stored, every other float field
    and every integer and string field is as before. *)
Theorem set_attr_dotted_frame (c : CenarioEntrada) (v : Q) (p : string)
    (proj : CenarioEntrada -> Q) :
  In (p, proj) campos ->
  exists c',
    _set_attr_dotted c p v = Ok c'
    /\ proj c' = v
    /\ (forall q projq, In (q, projq) campos -> q <> p -> projq c' = projq c)
    /\ outros_campos c' = outros_campos c.
Proof.
  intros Hin.
  pose proof (set_attr_dotted_frame_all c v) as Hall.
  rewrite Forall_forall in Hall.
  destruct (Hall _ Hin) as (c' & Hset & Hp & Hq & Ho).
  exists c'. split; [ exact Hset | ]. split; [ exact Hp | ]. split; [ | exact Ho ].
  intros q projq Hinq Hne. rewrite Forall_forall in Hq.
  exact (Hq _ Hinq Hne).
Qed.

Lemma set_attr_dotted_frame_witness :
  exists c',
    _set_attr_dotted cenario_padrao "energia.preco_mwh" 450 = Ok c'
    /\ preco_mwh (energia c') = 450
    /\ (forall q projq, In (q, projq) campos -> q <> "energia.preco_mwh"%string ->
          projq c' = projq cenario_padrao)
    /\ outros_campos c' = outros_campos cenario_padrao.
Proof.
  apply (set_attr_dotted_frame cenario_padrao 450 "energia.preco_mwh"
           (fun c => preco_mwh (energia c))).
  unfold campos. do 9 right. left. reflexivity.
Defined.

Lemma range_nth (n i : Z) :
  (0 <= i < n)%Z -> nth (Z.to_nat i) (range n) 0%Z = i.
Proof.
  intros Hi. unfold range.
  rewrite (nth_indep _ 0%Z (Z.of_nat 0)) by (rewrite length_map, length_seq; lia).
  rewrite map_nth, seq_nth by lia. lia.
Qed.

(** X14. [varredura_linear] returns the single point [inicio] when
    [n <= 1]; for [n >= 2] it returns [n] points, the [i]-th being
    [inicio + i * ((fim - inicio) / (n - 1))], the first equal to [inicio],
    and in non-decreasing order when [inicio <= fim]. *)
Theorem varredura_linear_points (inicio fim : Q) (m n : Z) :
  (m <= 1)%Z -> (2 <= n)%Z ->
  varredura_linear inicio fim m = Ok [inicio]
  /\ exists l,
       varredura_linear inicio fim n = Ok l
       /\ List.length l = Z.to_nat n
       /\ (forall i, (0 <= i < n)%Z ->
             nth (Z.to_nat i) l 0
             == inicio + inject_Z i * ((fim - inicio) / inject_Z (n - 1)))
       /\ nth 0 l 0 == inicio
       /\ (inicio <= fim ->
           forall i j, (0 <= i)%Z -> (i <= j)%Z -> (j < n)%Z ->
             nth (Z.to_nat i) l 0 <= nth (Z.to_nat j) l 0).
Proof.
  intros Hm Hn. unfold varredura_linear. split.
  - assert (E : (m <=? 1)%Z = true) by (apply Z.leb_le; lia). now rewrite E.
  - assert (E : (n <=? 1)%Z = false) by (apply Z.leb_gt; lia). rewrite E.
    assert (Hpos : 0 < inject_Z (n - 1)).
    { change 0 with (inject_Z 0). rewrite <- Zlt_Qlt. lia. }
    rewrite pydiv_ok by lra. cbv beta iota delta [bind].
    set (passo := (fim - inicio) / inject_Z (n - 1)).
    set (f := fun i : Z => inicio + inject_Z i * passo).
    assert (Hnth : forall i, (0 <= i < n)%Z ->
                     nth (Z.to_nat i) (map f (range n)) 0 = f i).
    { intros i Hi.
      rewrite (nth_indep _ 0 (f 0%Z))
        by (unfold range; rewrite !length_map, length_seq; lia).
      rewrite map_nth, range_nth by exact Hi. reflexivity. }
    eexists. split; [ reflexivity | ].
    split; [ unfold range; rewrite !length_map, length_seq; reflexivity | ].
    split; [ intros i Hi; rewrite (Hnth i Hi); reflexivity | ].
    split.
    + pose proof (Hnth 0%Z ltac:(lia)) as H0. cbn [Z.to_nat] in H0.
      rewrite H0. unfold f. change (inject_Z 0) with 0. ring.
    + intros Hle i j Hi Hij Hj.
      rewrite (Hnth i), (Hnth j) by lia. unfold f.
      assert (Hp : 0 <= passo).
      { unfold passo. apply Qle_shift_div_l; [ exact Hpos | lra ]. }
      assert (Hq : inject_Z i <= inject_Z j) by (rewrite <- Zle_Qle; exact Hij).
      clearbody passo. nra.
Qed.

Lemma varredura_linear_points_witness :
  varredura_linear 200 500 1 = Ok [200]
  /\ exists l,
       varredura_linear 200 500 7 = Ok l
       /\ List.length l = Z.to_nat 7
       /\ (forall i, (0 <= i < 7)%Z ->
             nth (Z.to_nat i) l 0
             == 200 + inject_Z i * ((500 - 200) / inject_Z (7 - 1)))
       /\ nth 0 l 0 == 200
       /\ (200 <= 500 ->
           forall i j, (0 <= i)%Z -> (i <= j)%Z -> (j < 7)%Z ->
             nth (Z.to_nat i) l 0 <= nth (Z.to_nat j) l 0).
Proof.
  apply (varredura_linear_points 200 500 1 7); lia.
Defined.

Lemma ponto_1d_de (base : CenarioEntrada) (parametro : string) (v : Q) (pt : Ponto) :
  ponto_1d base parametro v = Ok pt -> pt_valor pt = v /\ ponto_de base parametro pt.
Proof.
  unfold ponto_1d, _clone_cenario. cbv zeta.
  destruct (_set_attr_dotted base parametro v) as [c | e] eqn:E1; cbn [bind];
    [ | discriminate ].
  destruct (simular c) as [out | e] eqn:E2; cbn [bind]; [ | discriminate ].
  intros H. injection H as <-. split; [ reflexivity | ].
  exists c, out. cbn. repeat split; assumption.
Qed.

Lemma sensibilidade_1d_de (base : CenarioEntrada) (parametro : string)
    (valores : list Q) (pts : list Ponto) :
  sensibilidade_1d base parametro valores = Ok pts ->
  map pt_valor pts = valores /\ Forall (ponto_de base parametro) pts.
Proof.
  revert pts. induction valores as [ | v vs IH ]; intros pts; cbn [sensibilidade_1d].
  - intros H. injection H as <-. split; [ reflexivity | constructor ].
  - destruct (ponto_1d base parametro v) as [pt | e] eqn:E1; cbn [bind];
      [ | discriminate ].
    destruct (sensibilidade_1d base parametro vs) as [rest | e]; cbn [bind];
      [ | discriminate ].
    intros H. injection H as <-.
    destruct (ponto_1d_de _ _ _ _ E1) as [Ev Hpt].
    destruct (IH rest eq_refl) as [Em Hrest].
    split; [ cbn [map]; congruence | now constructor ].
Qed.

(** X15. A list returned by [sensibilidade_1d] has one point per value, in the
    order of the values, and each point holds the LCOH and the production
    of the base scenario with the parameter set to that value. *)
Theorem sensibilidade_1d_points (base : CenarioEntrada) (parametro : string)
    (valores : list Q) (pts : list Ponto) :
  sensibilidade_1d base parametro valores = Ok pts ->
  map pt_valor pts = valores /\ Forall (ponto_de base parametro) pts.
Proof.
  apply sensibilidade_1d_de.
Qed.

Lemma sensibilidade_1d_points_witness :
  exists pts,
    sensibilidade_1d cenario_padrao "energia.preco_mwh" [250; 350; 450] = Ok pts
    /\ map pt_valor pts = [250; 350; 450]
    /\ Forall (ponto_de cenario_padrao "energia.preco_mwh") pts.
Proof.
  eexists. split; [ vm_compute; reflexivity | ].
  apply (sensibilidade_1d_points cenario_padrao "energia.preco_mwh" [250; 350; 450]).
  vm_compute; reflexivity.
Defined.

(** X16. [sensibilidade_1d] stops at the first value whose run raises and
    raises that error: the points computed before it are not returned and
    the values after it are not run. *)
Theorem sensibilidade_1d_first_error (base : CenarioEntrada) (parametro : string)
    (antes : list Q) (v : Q) (depois : list Q) (e : exn) :
  Forall (fun x => exists pt, ponto_1d base parametro x = Ok pt) antes ->
  ponto_1d base parametro v = Raise e ->
  sensibilidade_1d base parametro (antes ++ v :: depois) = Raise e.
Proof.
  intros Hantes Hv. induction Hantes as [ | x xs [pt Hx] _ IH ];
    cbn [app sensibilidade_1d].
  - now rewrite Hv.
  - rewrite Hx. cbn [bind]. now rewrite IH.
Qed.

Lemma sensibilidade_1d_first_error_witness :
  sensibilidade_1d cenario_padrao "fator_capacidade_anual"
    ([1 # 2] ++ (3 # 2) :: [7 # 10])
  = Raise ValueError.
Proof.
  apply (sensibilidade_1d_first_error cenario_padrao "fator_capacidade_anual"
           [1 # 2] (3 # 2) [7 # 10] ValueError).
  - constructor; [ | constructor ]. eexists. vm_compute. reflexivity.
  - vm_compute. reflexivity.
Defined.

Lemma grade_linha_coords (base : CenarioEntrada) (px : string) (vx : Q) (py : string)
    (ys : list Q) (row : list PontoGrade) :
  grade_linha base px vx py ys = Ok row ->
  map (fun p => (g_x p, g_y p)) row = map (fun y => (vx, y)) ys.
Proof.
  revert row. induction ys as [ | y ys IH ]; intros row; cbn [grade_linha].
  - intros H. injection H as <-. reflexivity.
  - unfold ponto_2d at 1. cbv zeta.
    destruct (_set_attr_dotted _ px vx) as [c1 | e]; cbn [bind]; [ | discriminate ].
    destruct (_set_attr_dotted c1 py y) as [c2 | e]; cbn [bind]; [ | discriminate ].
    destruct (simular c2) as [out | e]; cbn [bind]; [ | discriminate ].
    destruct (grade_linha base px vx py ys) as [rest | e]; cbn [bind];
      [ | discriminate ].
    intros H. injection H as <-. cbn [map g_x g_y]. f_equal. now apply IH.
Qed.

(** X17. The grid returned by [sensibilidade_2d] lists the pairs of values in
    the order of the nested loops, [x] outer and [y] inner; it has
    [|xs| * |ys|] points and carries the two parameter names. *)
Theorem sensibilidade_2d_order (base : CenarioEntrada) (px py : string)
    (xs ys : list Q) (g : Grade) :
  sensibilidade_2d base px xs py ys = Ok g ->
  map (fun p => (g_x p, g_y p)) (grid g) = list_prod xs ys
  /\ List.length (grid g) = (List.length xs * List.length ys)%nat
  /\ param_x g = px /\ param_y g = py.
Proof.
  unfold sensibilidade_2d.
  destruct (grade_pontos base px xs py ys) as [pts | e] eqn:E; cbn [bind];
    [ | discriminate ].
  intros H. injection H as <-. cbn [grid param_x param_y].
  assert (Hc : map (fun p => (g_x p, g_y p)) pts = list_prod xs ys).
  { revert pts E. induction xs as [ | x xs IH ]; intros pts; cbn [grade_pontos].
    - intros H. injection H as <-. reflexivity.
    - destruct (grade_linha base px x py ys) as [row | e] eqn:Er; cbn [bind];
        [ | discriminate ].
      destruct (grade_pontos base px xs py ys) as [rest | e]; cbn [bind];
        [ | discriminate ].
      intros H. injection H as <-.
      rewrite map_app, (grade_linha_coords _ _ _ _ _ _ Er), (IH rest eq_refl).
      reflexivity. }
  split; [ exact Hc | ]. split; [ | now split ].
  rewrite <- (length_map (fun p => (g_x p, g_y p))), Hc. apply length_prod.
Qed.

Lemma sensibilidade_2d_order_witness :
  exists g,
    sensibilidade_2d cenario_padrao "energia.preco_mwh" [200; 500]
      "capex.eletrolisador_capex_por_kw" [500; 900] = Ok g
    /\ map (fun p => (g_x p, g_y p)) (grid g) = list_prod [200; 500] [500; 900]
    /\ List.length (grid g) = (List.length [200; 500] * List.length [500; 900])%nat
    /\ param_x g = "energia.preco_mwh"%string
    /\ param_y g = "capex.eletrolisador_capex_por_kw"%string.
Proof.
  eexists. split; [ vm_compute; reflexivity | ].
  apply (sensibilidade_2d_order cenario_padrao). vm_compute; reflexivity.
Defined.

(** X18. [spider_multivariavel] returns one series per definition, in order,
    with the name and the path of the definition and the points that
    [sensibilidade_1d] returns for its path and values. *)
Theorem spider_series (base : CenarioEntrada) (defs : list Definicao)
    (series : list Serie) :
  spider_multivariavel base defs = Ok series ->
  Forall2 (fun d s =>
             s_nome s = d_nome d /\ s_path s = d_path d
             /\ sensibilidade_1d base (d_path d) (d_valores d) = Ok (pontos s)
             /\ map pt_valor (pontos s) = d_valores d)
    defs series.
Proof.
  revert series. induction defs as [ | d ds IH ]; intros series;
    cbn [spider_multivariavel].
  - intros H. injection H as <-. constructor.
  - destruct (sensibilidade_1d base (d_path d) (d_valores d)) as [pts | e] eqn:E1;
      cbn [bind]; [ | discriminate ].
    destruct (spider_multivariavel base ds) as [rest | e]; cbn [bind];
      [ | discriminate ].
    intros H. injection H as <-. constructor; [ | now apply IH ].
    cbn [s_nome s_path pontos].
    split; [ reflexivity | ]. split; [ reflexivity | ]. split; [ exact E1 | ].
    now apply (sensibilidade_1d_de base (d_path d) _ _ E1).
Qed.

Lemma spider_series_witness :
  exists series,
    spider_multivariavel cenario_padrao definicoes_exemplo = Ok series
    /\ Forall2 (fun d s =>
                  s_nome s = d_nome d /\ s_path s = d_path d
                  /\ sensibilidade_1d cenario_padrao (d_path d) (d_valores d)
                     = Ok (pontos s)
                  /\ map pt_valor (pontos s) = d_valores d)
         definicoes_exemplo series.
Proof.
  eexists. split; [ vm_compute; reflexivity | ].
  apply spider_series. vm_compute; reflexivity.
Defined.

Section SortDescStable.

Context {A : Type} (key : A -> Q).

Lemma insert_desc_filter (k : Q) (x : A) (l : list A) :
  filter (fun a => Qeq_bool (key a) k) (insert_desc key x l)
  = filter (fun a => Qeq_bool (key a) k) (x :: l).
Proof.
  induction l as [ | y ys IH ]; cbn [insert_desc]; [ reflexivity | ].
  destruct (Qlt_le_dec (key x) (key y)) as [Hlt | Hge]; [ | reflexivity ].
  cbn [filter] in *. rewrite IH.
  destruct (Qeq_bool (key x) k) eqn:Ex; destruct (Qeq_bool (key y) k) eqn:Ey;
    try reflexivity.
  apply Qeq_bool_iff in Ex. apply Qeq_bool_iff in Ey. exfalso. lra.
Qed.

Lemma sort_desc_filter (k : Q) (l : list A) :
  filter (fun a => Qeq_bool (key a) k) (sort_desc key l)
  = filter (fun a => Qeq_bool (key a) k) l.
Proof.
  induction l as [ | x xs IH ]; [ reflexivity | ].
  cbn [sort_desc fold_right]. fold (sort_desc key xs).
  rewrite insert_desc_filter. cbn [filter]. now rewrite IH.
Qed.

End SortDescStable.

Lemma tornado_linhas_reference (base : CenarioEntrada) (ref : Q) (ps : list Parametro) :
  forall rows,
    tornado_linhas base ref ps = Ok rows ->
    map t_nome rows = map p_nome ps
    /\ Forall (fun r => lcoh_referencia r = ref
                        /\ delta r = lcoh_alto r - lcoh_baixo r) rows.
Proof.
  induction ps as [ | p ps IH ]; intros rows; cbn [tornado_linhas].
  - intros H. injection H as <-. split; [ reflexivity | constructor ].
  - unfold tornado_linha at 1. cbv zeta.
    destruct (_set_attr_dotted _ (p_path p) (p_baixo p)) as [c1 | e]; cbn [bind];
      [ | discriminate ].
    destruct (simular c1) as [o1 | e]; cbn [bind]; [ | discriminate ].
    destruct (_set_attr_dotted _ (p_path p) (p_alto p)) as [c2 | e]; cbn [bind];
      [ | discriminate ].
    destruct (simular c2) as [o2 | e]; cbn [bind]; [ | discriminate ].
    destruct (tornado_linhas base ref ps) as [rest | e]; cbn [bind];
      [ | discriminate ].
    intros H. injection H as <-. destruct (IH rest eq_refl) as [En Hr].
    split; [ cbn [map t_nome]; now rewrite En | ].
    constructor; [ cbn; split; reflexivity | exact Hr ].
Qed.

(** X19. A list returned by [tornado_lcoh] has one row per parameter; every
    row carries the LCOH of the base scenario as reference and a delta
    equal to high minus low; rows of equal absolute impact stand in the
    order of their parameters. *)
Theorem tornado_lcoh_ties_keep_order (base : CenarioEntrada) (ps : list Parametro)
    (rs : list LinhaTornado) :
  tornado_lcoh base ps = Ok rs ->
  exists out rows,
    simular base = Ok out
    /\ tornado_linhas base (lcoh out) ps = Ok rows
    /\ map t_nome rows = map p_nome ps
    /\ (forall k, filter (fun r => Qeq_bool (impacto_abs r) k) rs
                  = filter (fun r => Qeq_bool (impacto_abs r) k) rows)
    /\ Forall (fun r => lcoh_referencia r = lcoh out
                        /\ delta r = lcoh_alto r - lcoh_baixo r) rs
    /\ List.length rs = List.length ps.
Proof.
  unfold tornado_lcoh.
  destruct (simular base) as [out | e] eqn:Eb; cbn [bind]; [ | discriminate ].
  destruct (tornado_linhas base (lcoh out) ps) as [rows | e] eqn:E; cbn [bind];
    [ | discriminate ].
  intros H. injection H as <-.
  destruct (tornado_linhas_reference _ _ _ _ E) as [En Hr].
  exists out, rows. split; [ reflexivity | ]. split; [ exact E | ].
  split; [ exact En | ]. split; [ intros k; apply sort_desc_filter | ].
  split.
  - eapply Permutation_Forall; [ apply sort_desc_perm | exact Hr ].
  - rewrite <- (Permutation_length (sort_desc_perm impacto_abs rows)).
    rewrite <- (length_map t_nome), En. apply length_map.
Qed.

Lemma tornado_lcoh_ties_keep_order_witness :
  exists rs,
    tornado_lcoh cenario_padrao parametros_exemplo = Ok rs
    /\ exists out rows,
         simular cenario_padrao = Ok out
         /\ tornado_linhas cenario_padrao (lcoh out) parametros_exemplo = Ok rows
         /\ map t_nome rows = map p_nome parametros_exemplo
         /\ (forall k, filter (fun r => Qeq_bool (impacto_abs r) k) rs
                       = filter (fun r => Qeq_bool (impacto_abs r) k) rows)
         /\ Forall (fun r => lcoh_referencia r = lcoh out
                             /\ delta r = lcoh_alto r - lcoh_baixo r) rs
         /\ List.length rs = List.length parametros_exemplo.
Proof.
  eexists. split; [ vm_compute; reflexivity | ].
  apply (tornado_lcoh_ties_keep_order cenario_padrao parametros_exemplo).
  vm_compute; reflexivity.
Defined.

(** X20. On a base scenario whose capacity factor is outside [0, 1]
    [tornado_lcoh] raises [ValueError] whatever the parameters, even none,
    since it runs the base first; the sweeps run the base only through
    their values, so with no values they return empty results. *)
Theorem drivers_on_invalid_base (base : CenarioEntrada) (ps : list Parametro)
    (p px py : string) (xs : list Q) :
  ~ (0 <= fator_capacidade_anual base <= 1) ->
  tornado_lcoh base ps = Raise ValueError
  /\ sensibilidade_1d base p [] = Ok []
  /\ sensibilidade_2d base px xs py []
     = Ok {| param_x := px; param_y := py; grid := [] |}
  /\ spider_multivariavel base [] = Ok [].
Proof.
  intros H. apply simular_value_error_iff in H.
  split; [ unfold tornado_lcoh; now rewrite H | ].
  split; [ reflexivity | ]. split; [ | reflexivity ].
  unfold sensibilidade_2d.
  assert (E : grade_pontos base px xs py [] = Ok []).
  { induction xs as [ | x xs IH ]; cbn [grade_pontos grade_linha bind];
      [ reflexivity | now rewrite IH ]. }
  now rewrite E.
Qed.

Lemma drivers_on_invalid_base_witness :
  tornado_lcoh (com_fator_capacidade cenario_padrao 2) parametros_exemplo
  = Raise ValueError
  /\ sensibilidade_1d (com_fator_capacidade cenario_padrao 2) "energia.preco_mwh" []
     = Ok []
  /\ sensibilidade_2d (com_fator_capacidade cenario_padrao 2) "energia.preco_mwh"
       [200; 500] "agua.custo_agua_m3" []
     = Ok {| param_x := "energia.preco_mwh"; param_y := "agua.custo_agua_m3";
             grid := [] |}
  /\ spider_multivariavel (com_fator_capacidade cenario_padrao 2) [] = Ok [].
Proof.
  apply (drivers_on_invalid_base (com_fator_capacidade cenario_padrao 2)).
  intros [_ H]. vm_compute in H. now apply H.
Defined.

End SensSweepFacts.

(* ================================================================== *)
(** * Sensitivity driver: Monte Carlo                               *)
(* ================================================================== *)

Module SensMCFacts.

Import Tea Sens SensMC SensPaths SensMCSpec TeaCosts SensSweepFacts.

Lemma insert_asc_perm (x : Q) (l : list Q) : Permutation (insert_asc x l) (x :: l).
Proof.
  induction l as [ | y ys IH ]; cbn.
  - apply Permutation_refl.
  - destruct (Qlt_le_dec y x).
    + apply Permutation_trans with (y :: x :: ys).
      * apply perm_skip. exact IH.
      * apply perm_swap.
    + apply Permutation_refl.
Qed.

Lemma sorted_perm (l : list Q) : Permutation (sorted l) l.
Proof.
  induction l as [ | x xs IH ]; cbn.
  - apply perm_nil.
  - apply Permutation_trans with (x :: sorted xs).
    + apply insert_asc_perm.
    + apply perm_skip. exact IH.
Qed.

Lemma insert_asc_sorted (x : Q) (l : list Q) :
  StronglySorted Qle l -> StronglySorted Qle (insert_asc x l).
Proof.
  induction l as [ | y ys IH ]; cbn; intros Hs.
  - repeat constructor.
  - inversion Hs as [ | ? ? Hs' Hall ]; subst.
    destruct (Qlt_le_dec y x) as [Hlt | Hle].
    + constructor; [ apply IH; exact Hs' | ].
      apply (Permutation_Forall (Permutation_sym (insert_asc_perm x ys))).
      constructor; [ apply Qlt_le_weak; exact Hlt | exact Hall ].
    + constructor; [ exact Hs | ].
      constructor; [ exact Hle | ].
      eapply Forall_impl; [ | exact Hall ].
      intros z Hz. apply Qle_trans with y; assumption.
Qed.

Lemma sorted_sorted (l : list Q) : StronglySorted Qle (sorted l).
Proof.
  induction l as [ | x xs IH ]; cbn.
  - constructor.
  - apply insert_asc_sorted. exact IH.
Qed.

Lemma sorted_nth_mono (l : list Q) :
  StronglySorted Qle l ->
  forall i j, (i <= j)%nat -> (j < List.length l)%nat -> nth i l 0 <= nth j l 0.
Proof.
  induction 1 as [ | x xs Hs IH Hall ]; intros i j Hij Hj; cbn in Hj.
  - lia.
  - destruct i as [ | i ], j as [ | j ]; cbn.
    + apply Qle_refl.
    + rewrite Forall_forall in Hall. apply Hall. apply nth_In. lia.
    + lia.
    + apply IH; lia.
Qed.

Lemma last_nth (l : list Q) (d : Q) : last l d = nth (List.length l - 1) l d.
Proof.
  induction l as [ | x xs IH ]; [ reflexivity | ].
  destruct xs as [ | y ys ]; [ reflexivity | ].
  change (last (x :: y :: ys) d) with (last (y :: ys) d). rewrite IH.
  cbn [List.length]. replace (S (S (List.length ys)) - 1)%nat with (S (List.length ys)) by lia.
  cbn [nth]. replace (S (List.length ys) - 1)%nat with (List.length ys) by lia.
  reflexivity.
Qed.

(** The extremes of the summary of a non-empty list of samples. *)
Lemma resumir_extremes (lcohs : list Q) :
  lcohs <> [] ->
  exists r lo hi,
    resumir lcohs = Ok r
    /\ mc_n r = Z.of_nat (List.length lcohs)
    /\ amostras (mc_lcoh r) = lcohs
    /\ r_min (mc_lcoh r) = Fin lo /\ r_max (mc_lcoh r) = Fin hi
    /\ In lo lcohs /\ In hi lcohs
    /\ Forall (fun x => lo <= x /\ x <= hi) lcohs.
Proof.
  intros Hne.
  pose proof (sorted_perm lcohs) as Hperm.
  pose proof (sorted_sorted lcohs) as Hsorted.
  pose proof (Permutation_length Hperm) as Hlen.
  set (L := sorted lcohs) in *.
  set (n := Z.of_nat (List.length lcohs)).
  assert (Hn : (1 <= n)%Z).
  { unfold n. destruct lcohs; [ congruence | cbn [List.length]; lia ]. }
  assert (HnQ : 1 <= inject_Z n).
  { change 1 with (inject_Z 1). rewrite <- Zle_Qle. exact Hn. }
  unfold resumir. fold L. rewrite Hlen. fold n.
  destruct (Z.eqb_spec n 0) as [E | _]; [ lia | ].
  rewrite pydiv_ok by lra. cbn [bind].
  eexists. exists (nth 0 L 0), (last L 0).
  split; [ reflexivity | ]. cbn [mc_n mc_lcoh amostras r_min r_max].
  split; [ reflexivity | ]. split; [ reflexivity | ].
  split; [ reflexivity | ]. split; [ reflexivity | ].
  assert (Hpos : (0 < List.length L)%nat) by (rewrite Hlen; unfold n in Hn; lia).
  split; [ apply (Permutation_in _ Hperm); apply nth_In; exact Hpos | ].
  split.
  { apply (Permutation_in _ Hperm). rewrite last_nth. apply nth_In. lia. }
  apply (Permutation_Forall Hperm). rewrite Forall_forall. intros x Hx.
  destruct (In_nth _ _ 0 Hx) as (i & Hi & <-).
  split.
  - apply sorted_nth_mono; [ exact Hsorted | lia | exact Hi ].
  - rewrite last_nth. apply sorted_nth_mono; [ exact Hsorted | lia | lia ].
Qed.

Section SamplerFacts.

Variable rng : Type.
Variable seed : Z -> rng.
Variable gauss : rng -> Q -> Q -> Q * rng.
Variable uniform : rng -> Q -> Q -> Q * rng.

Lemma amostrar_length base ds (n : nat) g l :
  amostrar rng gauss uniform base ds n g = Ok l -> List.length l = n.
Proof.
  revert g l. induction n as [ | n IH ]; intros g l H; cbn in H.
  - injection H as <-. reflexivity.
  - destruct (sortear rng gauss uniform (_clone_cenario base) g ds) as [ [c' g'] | e ];
      [ | discriminate ].
    cbn in H. destruct (Tea.simular c') as [ out | e ]; [ | discriminate ].
    cbn in H.
    destruct (amostrar rng gauss uniform base ds n g') as [ rest | e ] eqn:E;
      [ | discriminate ].
    cbn in H. injection H as <-. cbn. f_equal. exact (IH _ _ E).
Qed.

Lemma amostrar_sem_distribuicoes base out (n : nat) g :
  Tea.simular base = Ok out ->
  amostrar rng gauss uniform base [] n g = Ok (repeat (lcoh out) n).
Proof.
  intros Hsim. induction n as [ | n IH ]; [ reflexivity | ].
  cbn. unfold _clone_cenario. rewrite Hsim. cbn. rewrite IH. reflexivity.
Qed.

Lemma sortear_tipo_nao_suportado c g antes d depois :
  Forall (fun x => tipo_suportado x /\ exists proj, In (dist_path x, proj) campos) antes ->
  ~ tipo_suportado d ->
  sortear rng gauss uniform c g (antes ++ d :: depois) = Raise ValueError.
Proof.
  intros Hantes Hd. revert c g.
  induction Hantes as [ | x xs [Hx (proj & Hin)] _ IH ]; intros c g.
  - cbn [app sortear]. fold (tipo_de d).
    destruct (String.eqb_spec (tipo_de d) "normal") as [E | _];
      [ exfalso; apply Hd; left; exact E | ].
    destruct (String.eqb_spec (tipo_de d) "uniforme") as [E | _];
      [ exfalso; apply Hd; right; exact E | ].
    reflexivity.
  - cbn [app sortear]. fold (tipo_de x).
    assert (Hset : forall v, exists c', _set_attr_dotted c (dist_path x) v = Ok c').
    { intros v. pose proof (set_attr_dotted_frame_all c v) as Hall.
      rewrite Forall_forall in Hall.
      destruct (Hall _ Hin) as (c' & Hc' & _). exists c'. exact Hc'. }
    destruct Hx as [E | E]; rewrite E; cbn [String.eqb Ascii.eqb Bool.eqb bind].
    + destruct (gauss g (dist_media x) (dist_desvio x)) as [val g'].
      destruct (Hset val) as (c' & ->). cbn [bind]. apply IH.
    + destruct (uniform g (dist_min x) (dist_max x)) as [val g'].
      destruct (Hset val) as (c' & ->). cbn [bind]. apply IH.
Qed.

(** X21. With [n_amostras <= 0] [monte_carlo_lcoh] draws nothing and runs
    nothing: whatever the base scenario and the distributions it returns
    [n = 0], no samples and [nan] for the six statistics. *)
Theorem monte_carlo_no_samples g0 base ds (n : Z) sem :
  (n <= 0)%Z ->
  monte_carlo_lcoh rng seed gauss uniform g0 base ds n sem
  = Ok {| mc_n := 0;
          mc_lcoh := {| amostras := []; r_min := NaN; r_max := NaN; r_media := NaN;
                        r_p5 := NaN; r_p50 := NaN; r_p95 := NaN |} |}.
Proof.
  intros Hn. unfold monte_carlo_lcoh.
  replace (Z.to_nat n) with 0%nat by lia. reflexivity.
Qed.

(** X22. A result of [monte_carlo_lcoh] for [n_amostras >= 1] has [n]
    equal to [n_amostras] and as many samples; its minimum and maximum are
    numbers, both are samples, and every sample lies between them. *)
Theorem monte_carlo_summary_extremes g0 base ds (n : Z) sem r :
  monte_carlo_lcoh rng seed gauss uniform g0 base ds n sem = Ok r ->
  (1 <= n)%Z ->
  mc_n r = n
  /\ List.length (amostras (mc_lcoh r)) = Z.to_nat n
  /\ exists lo hi,
       r_min (mc_lcoh r) = Fin lo /\ r_max (mc_lcoh r) = Fin hi
       /\ In lo (amostras (mc_lcoh r)) /\ In hi (amostras (mc_lcoh r))
       /\ Forall (fun x => lo <= x /\ x <= hi) (amostras (mc_lcoh r)).
Proof.
  intros Hmc Hn. unfold monte_carlo_lcoh in Hmc.
  set (g := match sem with Some z => seed z | None => g0 end) in Hmc.
  destruct (amostrar rng gauss uniform base ds (Z.to_nat n) g) as [ l | e ] eqn:Ha;
    [ | discriminate ].
  cbn [bind] in Hmc.
  pose proof (amostrar_length _ _ _ _ _ Ha) as Hlen.
  assert (Hne : l <> []) by (intros ->; cbn in Hlen; lia).
  destruct (resumir_extremes l Hne)
    as (r' & lo & hi & Hres & Hcount & Ham & Hmin & Hmax & Hlo & Hhi & Hall).
  rewrite Hres in Hmc. injection Hmc as <-.
  rewrite Hcount, Ham, Hlen.
  split; [ lia | ]. split; [ reflexivity | ].
  exists lo, hi. repeat (split; [ assumption | ]). exact Hall.
Qed.

(** X23. With no distributions and a base scenario that runs, every
    sample of [monte_carlo_lcoh] is the LCOH of the base scenario, and so
    are the minimum and the maximum. *)
Theorem monte_carlo_without_distributions g0 base (n : Z) sem out :
  Tea.simular base = Ok out ->
  (1 <= n)%Z ->
  exists r,
    monte_carlo_lcoh rng seed gauss uniform g0 base [] n sem = Ok r
    /\ mc_n r = n
    /\ amostras (mc_lcoh r) = repeat (lcoh out) (Z.to_nat n)
    /\ r_min (mc_lcoh r) = Fin (lcoh out) /\ r_max (mc_lcoh r) = Fin (lcoh out).
Proof.
  intros Hsim Hn.
  unfold monte_carlo_lcoh.
  set (g := match sem with Some z => seed z | None => g0 end).
  rewrite (amostrar_sem_distribuicoes base out (Z.to_nat n) g Hsim).
  cbn [bind].
  set (l := repeat (lcoh out) (Z.to_nat n)).
  assert (Hne : l <> []).
  { unfold l. destruct (Z.to_nat n) eqn:E; [ lia | discriminate ]. }
  destruct (resumir_extremes l Hne)
    as (r & lo & hi & Hres & Hcount & Ham & Hmin & Hmax & Hlo & Hhi & _).
  apply repeat_spec in Hlo, Hhi. subst lo hi.
  exists r. split; [ exact Hres | ].
  split; [ rewrite Hcount; unfold l; rewrite repeat_length; lia | ].
  split; [ exact Ham | ]. split; assumption.
Qed.

(** X24. With at least one sample asked for, an entry whose type in lower
    case is neither [normal] nor [uniforme] makes [monte_carlo_lcoh] raise
    [ValueError] in the first sample, when the entries before it have a
    supported type and the path of a float field. *)
Theorem monte_carlo_unsupported_type g0 base antes d depois (n : Z) sem :
  (1 <= n)%Z ->
  Forall (fun x => tipo_suportado x /\ exists proj, In (dist_path x, proj) campos) antes ->
  ~ tipo_suportado d ->
  monte_carlo_lcoh rng seed gauss uniform g0 base (antes ++ d :: depois) n sem
  = Raise ValueError.
Proof.
  intros Hn Hantes Hd. unfold monte_carlo_lcoh.
  destruct (Z.to_nat n) as [ | k ] eqn:E; [ lia | ].
  cbn [amostrar]. rewrite (sortear_tipo_nao_suportado _ _ _ _ _ Hantes Hd).
  reflexivity.
Qed.

End SamplerFacts.

Lemma monte_carlo_no_samples_witness :
  monte_carlo_lcoh Z gerador_exemplo_seed gerador_exemplo_gauss gerador_exemplo_uniform
    0%Z (com_fator_capacidade cenario_padrao 2) [distribuicao_triangular] (-3) None
  = Ok {| mc_n := 0;
          mc_lcoh := {| amostras := []; r_min := NaN; r_max := NaN; r_media := NaN;
                        r_p5 := NaN; r_p50 := NaN; r_p95 := NaN |} |}.
Proof.
  apply (monte_carlo_no_samples Z gerador_exemplo_seed gerador_exemplo_gauss
           gerador_exemplo_uniform). lia.
Defined.

Lemma monte_carlo_summary_extremes_witness :
  exists r,
    monte_carlo_lcoh Z gerador_exemplo_seed gerador_exemplo_gauss
      gerador_exemplo_uniform 0%Z cenario_padrao distribuicoes_exemplo 4 (Some 7%Z)
    = Ok r
    /\ mc_n r = 4%Z
    /\ List.length (amostras (mc_lcoh r)) = Z.to_nat 4
    /\ exists lo hi,
         r_min (mc_lcoh r) = Fin lo /\ r_max (mc_lcoh r) = Fin hi
         /\ In lo (amostras (mc_lcoh r)) /\ In hi (amostras (mc_lcoh r))
         /\ Forall (fun x => lo <= x /\ x <= hi) (amostras (mc_lcoh r)).
Proof.
  eexists. split; [ vm_compute; reflexivity | ].
  apply (monte_carlo_summary_extremes Z gerador_exemplo_seed gerador_exemplo_gauss
           gerador_exemplo_uniform 0%Z cenario_padrao distribuicoes_exemplo 4
           (Some 7%Z));
    [ vm_compute; reflexivity | lia ].
Defined.

Lemma monte_carlo_without_distributions_witness :
  exists out,
    simular cenario_padrao = Ok out
    /\ exists r,
         monte_carlo_lcoh Z gerador_exemplo_seed gerador_exemplo_gauss
           gerador_exemplo_uniform 0%Z cenario_padrao [] 3 None = Ok r
         /\ mc_n r = 3%Z
         /\ amostras (mc_lcoh r) = repeat (lcoh out) (Z.to_nat 3)
         /\ r_min (mc_lcoh r) = Fin (lcoh out) /\ r_max (mc_lcoh r) = Fin (lcoh out).
Proof.
  eexists. split; [ vm_compute; reflexivity | ].
  apply (monte_carlo_without_distributions Z gerador_exemplo_seed
           gerador_exemplo_gauss gerador_exemplo_uniform 0%Z cenario_padrao 3 None);
    [ vm_compute; reflexivity | lia ].
Defined.

Lemma monte_carlo_unsupported_type_witness :
  monte_carlo_lcoh Z gerador_exemplo_seed gerador_exemplo_gauss gerador_exemplo_uniform
    0%Z cenario_padrao (distribuicoes_exemplo ++ distribuicao_triangular :: []) 1 None
  = Raise ValueError.
Proof.
  apply (monte_carlo_unsupported_type Z gerador_exemplo_seed gerador_exemplo_gauss
           gerador_exemplo_uniform 0%Z cenario_padrao distribuicoes_exemplo
           distribuicao_triangular [] 1 None).
  - lia.
  - unfold distribuicoes_exemplo. constructor; [ | constructor; [ | constructor ] ].
    + split; [ left; vm_compute; reflexivity | ].
      eexists. unfold campos. cbn [dist_path]. do 9 right. left. reflexivity.
    + split; [ right; vm_compute; reflexivity | ].
      eexists. unfold campos. cbn [dist_path]. left. reflexivity.
  - intros [H | H]; vm_compute in H; discriminate H.
Defined.

End SensMCFacts.
